(** * Fire-Flow: the contract loop workflow

    A shallow embedding of [fire-flow/workflows/contract_loop.py] and
    [fire-flow/workflows/client.py], and the properties of the
    generate -> execute -> validate -> decide -> feedback -> retry loop.

    Python values are an inductive type, Python exceptions are the [Raise]
    branch of a result type, and the effects of a step (sub-processes, the file
    system, spawned workflow runs) are threaded through a state-and-error
    monad.  What the repository does not define (the [json] module, the
    operating system, the Hatchet scheduler) is an interface: a type class
    whose instances are the possible environments. *)

From Stdlib Require Import ZArith List String Ascii Bool Lia DecimalString.
From Stdlib Require OrdersEx Sorted.
Import ListNotations.
Open Scope string_scope.
Open Scope Z_scope.
Set Warnings "-register-all".

(** ** Python values *)

(** The values [json.loads] returns and [json.dumps] accepts.  Numbers with a
    fraction or an exponent (Python floats) are outside this model. *)
Inductive pyval : Type :=
| PNone
| PBool (b : bool)
| PInt (z : Z)
| PStr (s : string)
| PList (l : list pyval)
| PDict (items : list (string * pyval)).

(** A dict is its list of items, in insertion order. *)
Definition pydict := list (string * pyval).

Fixpoint dict_get (k : string) (d : pydict) : option pyval :=
  match d with
  | [] => None
  | (k', v) :: d' => if String.eqb k k' then Some v else dict_get k d'
  end.

(** [d[k] = v]: an existing key keeps its place, a new key goes last. *)
Fixpoint dict_set (k : string) (v : pyval) (d : pydict) : pydict :=
  match d with
  | [] => [(k, v)]
  | (k', v') :: d' =>
      if String.eqb k k' then (k', v) :: d' else (k', v') :: dict_set k v d'
  end.

(** [{**d, **e}]: the items of [e] are written over [d], left to right. *)
Definition dict_update (d e : pydict) : pydict :=
  fold_left (fun acc kv => dict_set (fst kv) (snd kv) acc) e d.

(** Truth value of a Python object, as [if x:] and [not x] test it. *)
Definition py_truthy (v : pyval) : bool :=
  match v with
  | PNone => false
  | PBool b => b
  | PInt z => negb (z =? 0)
  | PStr s => negb (String.eqb s EmptyString)
  | PList l => match l with [] => false | _ => true end
  | PDict d => match d with [] => false | _ => true end
  end.

(** [str(n)] for an int. *)
Definition str_of_int (z : Z) : string := NilZero.string_of_int (Z.to_int z).

(** The line feed, Python's ["\n"]. *)
Definition nl : string := String (ascii_of_nat 10) EmptyString.

(** [l.insert(i, x)] for [0 <= i]. *)
Definition list_insert {A : Type} (i : nat) (x : A) (l : list A) : list A :=
  firstn i l ++ x :: skipn i l.

(** [str(Path(d) / f)], for a directory [d] without a trailing slash. *)
Definition path_join (d f : string) : string := d ++ "/" ++ f.

(** ** Exceptions and the step monad *)

Inductive exn : Type :=
| SubprocessTimeoutExpired
| JSONDecodeError
| AttributeError
| KeyError (k : string)
| TypeError
| OSError
| PyException (msg : string).

Inductive result (A : Type) : Type :=
| Ok (a : A)
| Raise (e : exn).
Arguments Ok {A} a.
Arguments Raise {A} e.

(** A computation over a state [S] that returns or raises; the state survives
    a raised exception, as the effects of a failed Python call do. *)
Definition M (S A : Type) : Type := S -> result A * S.

Definition ret {S A : Type} (a : A) : M S A := fun s => (Ok a, s).

Definition raise {S A : Type} (e : exn) : M S A := fun s => (Raise e, s).

Definition bind {S A B : Type} (m : M S A) (k : A -> M S B) : M S B :=
  fun s =>
    match m s with
    | (Ok a, s') => k a s'
    | (Raise e, s') => (Raise e, s')
    end.

Notation "x <- m ;; k" := (bind m (fun x => k))
  (at level 61, m at next level, right associativity).

(** [try: m  except E: h], where [caught] tells the exceptions of class
    [E]. *)
Definition try_except {S A : Type} (m : M S A) (caught : exn -> bool)
  (h : M S A) : M S A :=
  fun s =>
    match m s with
    | (Ok a, s') => (Ok a, s')
    | (Raise e, s') => if caught e then h s' else (Raise e, s')
    end.

Definition is_JSONDecodeError (e : exn) : bool :=
  match e with JSONDecodeError => true | _ => false end.

(** Every exception of the model is an [Exception]. *)
Definition is_Exception (e : exn) : bool := true.

(** ** The environment *)

(** What the [json] module and [str()] compute; [py_repr] is only used for
    lists and dicts, whose [str()] is their [repr()]. *)
Class PyRuntime : Type := {
  json_loads : string -> option pyval;
  json_dumps : pyval -> string;
  json_dumps_indent : Z -> pyval -> string;
  py_repr : pyval -> string;
  json_loads_empty_object : json_loads "{}" = Some (PDict [])
}.

(** [subprocess.CompletedProcess], with [capture_output=True, text=True]. *)
Record CompletedProcess : Type := {
  returncode : Z;
  stdout : string;
  stderr : string
}.

(** How a child process ends under [subprocess.run(..., timeout=t)]: it
    completes within [t] seconds, or it is killed when they have elapsed. *)
Inductive proc_outcome : Type :=
| Completed (p : CompletedProcess)
| Overran.

(** The operating system and the scheduler, over a world state [W]:
    [os_run argv input timeout] runs a child process to its end,
    [os_read path] is [open(path).read()] ([None]: the call raises),
    [os_mkdtemp prefix] is [tempfile.mkdtemp] ([None]: the call raises),
    [os_run_id] is the id Hatchet gives the next workflow run, and
    [repo_root] is the directory three levels above [contract_loop.py]. *)
Class Host (W : Type) : Type := {
  os_run : list string -> string -> Z -> W -> proc_outcome * W;
  os_read : string -> W -> option string;
  os_mkdtemp : string -> W -> option string * W;
  os_run_id : W -> string * W;
  repo_root : string
}.

(** ** The state of a worker *)

(** The ["_retry_state"] entry [retry_or_complete] adds to the input of the
    run it spawns. *)
Record RetryState : Type := {
  retry_attempt : pyval;
  retry_feedback : option string;
  retry_trace_id : string;
  retry_work_dir : string
}.

(** The input of a workflow run, with the entries the client sends;
    [None] is an absent key. *)
Record WorkflowInput : Type := {
  contract : string;
  task : string;
  input_json : option string;
  max_attempts : option Z;
  _retry_state : option RetryState
}.

(** What a step leaves behind: the world, the tool invocations made so far
    (script and request, oldest first) and the workflow runs asked of the
    scheduler and not yet started (workflow name and input). *)
Record State (W : Type) : Type := {
  world : W;
  invocations : list (string * pyval);
  pending : list (string * WorkflowInput)
}.
Arguments world {W} s.
Arguments invocations {W} s.
Arguments pending {W} s.

(** ** Step outputs *)

Record InitData : Type := {
  init_trace_id : string;
  init_work_dir : string;
  init_attempt : Z;
  init_max_attempts : Z;
  init_feedback : string
}.

Record ExecData : Type := {
  exec_output_path : string;
  exec_logs_path : string;
  execution_result : pyval
}.

Record ValData : Type := {
  valid : pyval;
  validation_result : pyval
}.

(** The dict [decide] returns, by its ["decision"] entry. *)
Inductive DecideData : Type :=
| DecideSuccess (attempts_made : pyval)
| DecideEscalate (attempts_made : pyval) (last_error : pyval)
| DecideRetry (attempt : pyval).

Definition decision (d : DecideData) : string :=
  match d with
  | DecideSuccess _ => "success"
  | DecideEscalate _ _ => "escalate"
  | DecideRetry _ => "retry"
  end.

(** The dict [retry_or_complete] returns, by its ["status"] entry. *)
Inductive Completion : Type :=
| StatusSuccess (output_path : string) (tool_path : pyval) (attempts : pyval)
| StatusEscalated (message : string) (attempts : pyval)
    (last_error : option pyval)
| StatusRetrying (attempt : pyval).

Definition status (c : Completion) : string :=
  match c with
  | StatusSuccess _ _ _ => "success"
  | StatusEscalated _ _ _ => "escalated"
  | StatusRetrying _ => "retrying"
  end.

(** The outputs of the seven steps of one workflow run. *)
Record RunOutputs : Type := {
  out_init : InitData;
  out_generate : pydict;
  out_execute : ExecData;
  out_validate : ValData;
  out_decide : DecideData;
  out_collect_feedback : option string;
  out_retry_or_complete : Completion
}.

(** ** The workflow *)

(** A step of the workflow, run by a worker. *)
Definition Step (W A : Type) : Type := M (State W) A.

Section Workflow.

Context {W : Type} {runtime : PyRuntime} {host : Host W}.

(** [subprocess.run(argv, input=input, capture_output=True, text=True,
    timeout=timeout)]: raises [TimeoutExpired] when the child is not done
    in time. *)
Definition subprocess_run (argv : list string) (input : string) (timeout : Z)
  : Step W CompletedProcess :=
  fun s =>
    let (o, w) := os_run argv input timeout (world s) in
    let s' := {| world := w; invocations := invocations s;
                 pending := pending s |} in
    match o with
    | Completed p => (Ok p, s')
    | Overran => (Raise SubprocessTimeoutExpired, s')
    end.

(** [with open(path) as f: f.read()] *)
Definition open_read (path : string) : Step W string :=
  fun s =>
    match os_read path (world s) with
    | Some text => (Ok text, s)
    | None => (Raise OSError, s)
    end.

(** [tempfile.mkdtemp(prefix=prefix)] *)
Definition mkdtemp (prefix : string) : Step W string :=
  fun s =>
    let (r, w) := os_mkdtemp prefix (world s) in
    let s' := {| world := w; invocations := invocations s;
                 pending := pending s |} in
    match r with
    | Some dir => (Ok dir, s')
    | None => (Raise OSError, s')
    end.

(** [ctx.spawn_workflow(name, input)]: the run is handed to the scheduler and
    not waited for. *)
Definition spawn_workflow (name : string) (input : WorkflowInput)
  : Step W unit :=
  fun s =>
    (Ok tt, {| world := world s; invocations := invocations s;
               pending := pending s ++ [(name, input)] |}).

(** A tool invocation is entered in the log as it starts.  The log is kept
    for the properties below; the source keeps none. *)
Definition note_invocation (script_path : string) (input_data : pyval)
  : Step W unit :=
  fun s =>
    (Ok tt, {| world := world s;
               invocations := invocations s ++ [(script_path, input_data)];
               pending := pending s |}).

(** The state a tool invocation leaves: the world as the child process left
    it, the invocation entered in the log, the spawned runs untouched. *)
Definition invoked (s : State W) (script_path : string) (input_data : pyval)
  (w : W) : State W :=
  {| world := w;
     invocations := invocations s ++ [(script_path, input_data)];
     pending := pending s |}.

(** [json.loads(text)] *)
Definition loads (text : string) : Step W pyval :=
  match json_loads text with
  | Some v => ret v
  | None => raise JSONDecodeError
  end.

(** [v.get(k, default)]: only a dict has [get]. *)
Definition py_get (v : pyval) (k : string) (default : pyval) : Step W pyval :=
  match v with
  | PDict d =>
      ret (match dict_get k d with Some x => x | None => default end)
  | _ => raise AttributeError
  end.

(** [d[k]] *)
Definition py_getitem (d : pydict) (k : string) : Step W pyval :=
  match dict_get k d with
  | Some x => ret x
  | None => raise (KeyError k)
  end.

(** [str(v)], as an f-string formats [v]. *)
Definition py_str (v : pyval) : string :=
  match v with
  | PNone => "None"
  | PBool true => "True"
  | PBool false => "False"
  | PInt z => str_of_int z
  | PStr s => s
  | PList _ | PDict _ => py_repr v
  end.

(** [v >= n] for an int [n]: a bool counts as 0 or 1, and no other type
    is ordered against an int. *)
Definition py_ge_int (v : pyval) (n : Z) : Step W bool :=
  match v with
  | PInt z => ret (n <=? z)
  | PBool b => ret (n <=? (if b then 1 else 0))
  | _ => raise TypeError
  end.

Definition TOOLS_DIR : string :=
  path_join (path_join repo_root "bitter-truth") "tools".

(** [run_nu_script]: run a Nushell script with JSON input, return the parsed
    output. *)
Definition run_nu_script (script_path : string) (input_data : pyval)
  : Step W pyval :=
  _ <- note_invocation script_path input_data ;;
  result <- subprocess_run ["nu"; script_path] (json_dumps input_data) 300 ;;
  if negb (returncode result =? 0) then
    ret (PDict [("success", PBool false);
                ("error",
                 PStr (if String.eqb (stderr result) EmptyString
                       then "Exit code: " ++ str_of_int (returncode result)
                       else stderr result));
                ("stdout", PStr (stdout result))])
  else
    try_except (loads (stdout result)) is_JSONDecodeError
      (ret (PDict [("success", PBool true);
                   ("raw_output", PStr (stdout result))])).

(** [init]: initialize the workflow with trace id and workspace.
    [run_id] is [ctx.workflow_run_id()] and [workflow_input] is
    [ctx.workflow_input()]. *)
Definition init (run_id : string) (workflow_input : WorkflowInput)
  : Step W InitData :=
  let trace_id := run_id in
  work_dir <- mkdtemp ("fire-flow-" ++ substring 0 8 trace_id ++ "-") ;;
  ret {| init_trace_id := trace_id;
         init_work_dir := work_dir;
         init_attempt := 0;
         init_max_attempts :=
           match max_attempts workflow_input with Some n => n | None => 5 end;
         init_feedback := "Initial generation" |}.

(** The request [generate] sends to the generator. *)
Definition generate_input (init_data : InitData)
  (workflow_input : WorkflowInput) : pyval :=
  let attempt := init_attempt init_data + 1 in
  let tool_path := path_join (init_work_dir init_data) "tool.nu" in
  PDict [("contract_path", PStr (contract workflow_input));
         ("task", PStr (task workflow_input));
         ("feedback", PStr (init_feedback init_data));
         ("attempt",
          PStr (str_of_int attempt ++ "/"
                ++ str_of_int (init_max_attempts init_data)));
         ("output_path", PStr tool_path);
         ("context", PDict [("trace_id", PStr (init_trace_id init_data))])].

(** [generate]: generate the Nushell tool from contract, task and
    feedback. *)
Definition generate (init_data : InitData) (workflow_input : WorkflowInput)
  : Step W pydict :=
  let attempt := init_attempt init_data + 1 in
  let tool_path := path_join (init_work_dir init_data) "tool.nu" in
  result <- run_nu_script (path_join TOOLS_DIR "generate.nu")
              (generate_input init_data workflow_input) ;;
  success <- py_get result "success" (PBool false) ;;
  if negb (py_truthy success) then
    error <- py_get result "error" (PStr "Unknown error") ;;
    raise (PyException ("Generation failed: " ++ py_str error))
  else
    match result with
    | PDict items =>
        ret (dict_update [("tool_path", PStr tool_path);
                          ("attempt", PInt attempt)] items)
    | _ => raise TypeError
    end.

(** [execute]: execute the generated tool with the input. *)
Definition execute (init_data : InitData) (gen_data : pydict)
  (workflow_input : WorkflowInput) : Step W ExecData :=
  let output_path := path_join (init_work_dir init_data) "output.json" in
  let logs_path := path_join (init_work_dir init_data) "logs.json" in
  tool_path <- py_getitem gen_data "tool_path" ;;
  tool_input <- loads (match input_json workflow_input with
                       | Some text => text
                       | None => "{}"
                       end) ;;
  result <- run_nu_script (path_join TOOLS_DIR "run-tool.nu")
              (PDict [("tool_path", tool_path);
                      ("tool_input", tool_input);
                      ("output_path", PStr output_path);
                      ("logs_path", PStr logs_path);
                      ("context",
                       PDict [("trace_id",
                               PStr (init_trace_id init_data))])]) ;;
  ret {| exec_output_path := output_path;
         exec_logs_path := logs_path;
         execution_result := result |}.

(** [result.get("data", {}).get("valid", False)] *)
Definition valid_flag (result : pyval) : Step W pyval :=
  data <- py_get result "data" (PDict []) ;;
  py_get data "valid" (PBool false).

(** [validate]: validate the tool output against the contract. *)
Definition validate (init_data : InitData) (exec_data : ExecData)
  (workflow_input : WorkflowInput) : Step W ValData :=
  result <- run_nu_script (path_join TOOLS_DIR "validate.nu")
              (PDict [("contract_path", PStr (contract workflow_input));
                      ("output_path", PStr (exec_output_path exec_data));
                      ("server", PStr "local");
                      ("context",
                       PDict [("trace_id",
                               PStr (init_trace_id init_data))])]) ;;
  is_valid <- valid_flag result ;;
  ret {| valid := is_valid; validation_result := result |}.

(** [decide]: success, retry, or escalate. *)
Definition decide (init_data : InitData) (gen_data : pydict)
  (val_data : ValData) : Step W DecideData :=
  if py_truthy (valid val_data) then
    attempt <- py_getitem gen_data "attempt" ;;
    ret (DecideSuccess attempt)
  else
    attempt <- py_getitem gen_data "attempt" ;;
    exhausted <- py_ge_int attempt (init_max_attempts init_data) ;;
    if exhausted : bool then
      ret (DecideEscalate attempt (validation_result val_data))
    else
      ret (DecideRetry attempt).

(** The lines [collect_feedback] starts from. *)
Definition feedback_parts (init_data : InitData) (val_data : ValData)
  (attempt : pyval) : list string :=
  ["ATTEMPT " ++ py_str attempt ++ "/"
     ++ str_of_int (init_max_attempts init_data) ++ " FAILED.";
   EmptyString;
   "CONTRACT ERRORS:";
   json_dumps_indent 2 (validation_result val_data);
   EmptyString;
   "FIX THE NUSHELL SCRIPT TO SATISFY THE CONTRACT."].

(** [collect_feedback]: collect feedback for the self-healing retry. *)
Definition collect_feedback (decide_data : DecideData) (init_data : InitData)
  (exec_data : ExecData) (val_data : ValData) (gen_data : pydict)
  : Step W (option string) :=
  if negb (String.eqb (decision decide_data) "retry") then ret None
  else
    attempt <- py_getitem gen_data "attempt" ;;
    let parts := feedback_parts init_data val_data attempt in
    parts' <- try_except
                (output_content <- open_read (exec_output_path exec_data) ;;
                 ret (list_insert 4
                        ("OUTPUT PRODUCED:" ++ nl ++ output_content) parts))
                is_Exception
                (ret parts) ;;
    ret (Some (String.concat nl parts')).

Definition escalation_message : string :=
  "AI failed to satisfy contract after max attempts. FIX THE PROMPT OR CONTRACT, NOT THE NUSHELL.".

(** [retry_or_complete]: spawn the retry workflow or complete. *)
Definition retry_or_complete (decide_data : DecideData)
  (feedback_data : option string) (init_data : InitData)
  (exec_data : ExecData) (gen_data : pydict)
  (workflow_input : WorkflowInput) : Step W Completion :=
  match decide_data with
  | DecideSuccess attempts_made =>
      tool_path <- py_getitem gen_data "tool_path" ;;
      ret (StatusSuccess (exec_output_path exec_data) tool_path attempts_made)
  | DecideEscalate attempts_made last_error =>
      ret (StatusEscalated escalation_message attempts_made (Some last_error))
  | DecideRetry _ =>
      attempt <- py_getitem gen_data "attempt" ;;
      _ <- spawn_workflow "ContractLoopWorkflow"
             {| contract := contract workflow_input;
                task := task workflow_input;
                input_json := input_json workflow_input;
                max_attempts := max_attempts workflow_input;
                _retry_state :=
                  Some {| retry_attempt := attempt;
                          retry_feedback := feedback_data;
                          retry_trace_id := init_trace_id init_data;
                          retry_work_dir := init_work_dir init_data |} |} ;;
      ret (StatusRetrying attempt)
  end.

(** One run of [ContractLoopWorkflow]: each step has the step before it as
    its parent, so the steps run in this order and a step that raises ends
    the run. *)
Definition ContractLoopWorkflow (run_id : string)
  (workflow_input : WorkflowInput) : Step W RunOutputs :=
  init_data <- init run_id workflow_input ;;
  gen_data <- generate init_data workflow_input ;;
  exec_data <- execute init_data gen_data workflow_input ;;
  val_data <- validate init_data exec_data workflow_input ;;
  decide_data <- decide init_data gen_data val_data ;;
  feedback_data <- collect_feedback decide_data init_data exec_data val_data
                     gen_data ;;
  completion <- retry_or_complete decide_data feedback_data init_data
                  exec_data gen_data workflow_input ;;
  ret {| out_init := init_data;
         out_generate := gen_data;
         out_execute := exec_data;
         out_validate := val_data;
         out_decide := decide_data;
         out_collect_feedback := feedback_data;
         out_retry_or_complete := completion |}.

(** ** The scheduler and the client *)

(** The scheduler names a run and a worker runs its steps; the worker has
    registered [ContractLoopWorkflow] and nothing else. *)
Definition start_run (name : string) (workflow_input : WorkflowInput)
  : Step W RunOutputs :=
  fun s =>
    let (run_id, w) := os_run_id (world s) in
    let s' := {| world := w; invocations := invocations s;
                 pending := pending s |} in
    if String.eqb name "ContractLoopWorkflow"
    then ContractLoopWorkflow run_id workflow_input s'
    else (Raise (PyException ("workflow not registered: " ++ name)), s').

(** The worker takes the spawned runs in order, at most [fuel] of them, and
    returns what each run ended with. *)
Fixpoint worker (fuel : nat) (s : State W)
  : list (result RunOutputs) * State W :=
  match fuel with
  | O => ([], s)
  | S fuel' =>
      match pending s with
      | [] => ([], s)
      | (name, workflow_input) :: rest =>
          let (r, s1) :=
            start_run name workflow_input
              {| world := world s; invocations := invocations s;
                 pending := rest |} in
          let (rs, s2) := worker fuel' s1 in
          (r :: rs, s2)
      end
  end.

(** [run_contract_loop_async]: start a run and wait for its result.  An
    omitted [input_json] is ["{}"] and an omitted [max_attempts] is [5]. *)
Definition run_contract_loop_async (contract_ task_ : string)
  (input_json_ : option string) (max_attempts_ : option Z)
  : Step W RunOutputs :=
  start_run "ContractLoopWorkflow"
    {| contract := contract_;
       task := task_;
       input_json :=
         Some (match input_json_ with Some text => text | None => "{}" end);
       max_attempts :=
         Some (match max_attempts_ with Some n => n | None => 5 end);
       _retry_state := None |}.

(** [run_contract_loop]: the same, synchronously. *)
Definition run_contract_loop (contract_ task_ : string)
  (input_json_ : option string) (max_attempts_ : option Z)
  : Step W RunOutputs :=
  run_contract_loop_async contract_ task_ input_json_ max_attempts_.

End Workflow.

(** ** A runtime for the examples

    A small [json] module: objects, arrays, strings of printable ASCII with
    the short escapes, integers, [true], [false] and [null].  Numbers with a
    fraction or an exponent and [\u] escapes are rejected. *)

Module RefRuntime.

Definition dq_char : ascii := ascii_of_nat 34.
Definition sq_char : ascii := ascii_of_nat 39.
Definition bs_char : ascii := ascii_of_nat 92.
Definition dq : string := String dq_char EmptyString.

Definition is_ws (c : ascii) : bool :=
  let n := nat_of_ascii c in
  (Nat.eqb n 32 || Nat.eqb n 9 || Nat.eqb n 10 || Nat.eqb n 13)%bool.

Definition is_digit (c : ascii) : bool :=
  let n := nat_of_ascii c in (Nat.leb 48 n && Nat.leb n 57)%bool.

Fixpoint skip_ws (s : string) : string :=
  match s with
  | String c s' => if is_ws c then skip_ws s' else s
  | EmptyString => s
  end.

(** [expect p s]: the rest of [s] after its prefix [p]. *)
Fixpoint expect (p s : string) : option string :=
  match p, s with
  | EmptyString, _ => Some s
  | String a p', String b s' => if Ascii.eqb a b then expect p' s' else None
  | String _ _, EmptyString => None
  end.

(** The digits at the head of [s], as a number, and the rest. *)
Fixpoint read_digits (acc : Z) (s : string) : Z * string :=
  match s with
  | String c s' =>
      if is_digit c
      then read_digits (10 * acc + Z.of_nat (nat_of_ascii c - 48)) s'
      else (acc, s)
  | EmptyString => (acc, s)
  end.

Definition starts_fraction (s : string) : bool :=
  match s with
  | String c _ =>
      (Ascii.eqb c "." || Ascii.eqb c "e" || Ascii.eqb c "E")%bool
  | EmptyString => false
  end.

Definition read_int (s : string) : option (Z * string) :=
  match s with
  | String c _ =>
      if is_digit c then
        let (n, rest) := read_digits 0 s in
        if starts_fraction rest then None else Some (n, rest)
      else None
  | EmptyString => None
  end.

Definition unescape (c : ascii) : option ascii :=
  if Ascii.eqb c dq_char then Some dq_char
  else if Ascii.eqb c bs_char then Some bs_char
  else if Ascii.eqb c "/" then Some "/"%char
  else if Ascii.eqb c "n" then Some (ascii_of_nat 10)
  else if Ascii.eqb c "t" then Some (ascii_of_nat 9)
  else if Ascii.eqb c "r" then Some (ascii_of_nat 13)
  else if Ascii.eqb c "b" then Some (ascii_of_nat 8)
  else if Ascii.eqb c "f" then Some (ascii_of_nat 12)
  else None.

(** The text of a string literal after its opening quote, and the rest. *)
Fixpoint read_string (s : string) : option (string * string) :=
  match s with
  | EmptyString => None
  | String c s' =>
      if Ascii.eqb c dq_char then Some (EmptyString, s')
      else if Ascii.eqb c bs_char then
        match s' with
        | String e s'' =>
            match unescape e, read_string s'' with
            | Some c', Some (text, rest) => Some (String c' text, rest)
            | _, _ => None
            end
        | EmptyString => None
        end
      else if Nat.ltb (nat_of_ascii c) 32 then None
      else
        match read_string s' with
        | Some (text, rest) => Some (String c text, rest)
        | None => None
        end
  end.

Fixpoint parse_value (fuel : nat) (s : string) : option (pyval * string) :=
  match fuel with
  | O => None
  | S fuel' =>
      match skip_ws s with
      | EmptyString => None
      | String c rest =>
          if Ascii.eqb c "n" then
            option_map (pair PNone) (expect "ull" rest)
          else if Ascii.eqb c "t" then
            option_map (pair (PBool true)) (expect "rue" rest)
          else if Ascii.eqb c "f" then
            option_map (pair (PBool false)) (expect "alse" rest)
          else if Ascii.eqb c dq_char then
            match read_string rest with
            | Some (text, rest') => Some (PStr text, rest')
            | None => None
            end
          else if Ascii.eqb c "-" then
            match read_int rest with
            | Some (n, rest') => Some (PInt (- n), rest')
            | None => None
            end
          else if Ascii.eqb c "[" then
            match skip_ws rest with
            | String "]" rest' => Some (PList [], rest')
            | _ =>
                (fix elements (k : nat) (acc : list pyval) (s : string)
                   : option (pyval * string) :=
                   match k with
                   | O => None
                   | S k' =>
                       match parse_value fuel' s with
                       | Some (v, s1) =>
                           match skip_ws s1 with
                           | String "," s2 => elements k' (acc ++ [v])%list s2
                           | String "]" s2 => Some (PList (acc ++ [v])%list, s2)
                           | _ => None
                           end
                       | None => None
                       end
                   end) fuel' [] rest
            end
          else if Ascii.eqb c "{" then
            match skip_ws rest with
            | String "}" rest' => Some (PDict [], rest')
            | _ =>
                (fix members (k : nat) (acc : pydict) (s : string)
                   : option (pyval * string) :=
                   match k with
                   | O => None
                   | S k' =>
                       match skip_ws s with
                       | String q s0 =>
                           if Ascii.eqb q dq_char then
                             match read_string s0 with
                             | Some (key, s1) =>
                                 match skip_ws s1 with
                                 | String ":" s2 =>
                                     match parse_value fuel' s2 with
                                     | Some (v, s3) =>
                                         match skip_ws s3 with
                                         | String "," s4 =>
                                             members k' (dict_set key v acc) s4
                                         | String "}" s4 =>
                                             Some (PDict (dict_set key v acc),
                                                   s4)
                                         | _ => None
                                         end
                                     | None => None
                                     end
                                 | _ => None
                                 end
                             | None => None
                             end
                           else None
                       | EmptyString => None
                       end
                   end) fuel' [] rest
            end
          else
            match read_int (String c rest) with
            | Some (n, rest') => Some (PInt n, rest')
            | None => None
            end
      end
  end.

(** [json.loads]: one value, then nothing but white space. *)
Definition loads (text : string) : option pyval :=
  match parse_value (S (String.length text)) text with
  | Some (v, rest) =>
      match skip_ws rest with
      | EmptyString => Some v
      | String _ _ => None
      end
  | None => None
  end.

(** A character inside a string literal that [quote] delimits. *)
Definition escape (quote c : ascii) : string :=
  let n := nat_of_ascii c in
  if Ascii.eqb c quote then String bs_char (String quote EmptyString)
  else if Ascii.eqb c bs_char then String bs_char (String bs_char EmptyString)
  else if Nat.eqb n 10 then String bs_char "n"
  else if Nat.eqb n 9 then String bs_char "t"
  else if Nat.eqb n 13 then String bs_char "r"
  else String c EmptyString.

Fixpoint escape_all (quote : ascii) (s : string) : string :=
  match s with
  | EmptyString => EmptyString
  | String c s' => escape quote c ++ escape_all quote s'
  end.

Definition json_string (s : string) : string :=
  dq ++ escape_all dq_char s ++ dq.

(** [json.dumps(v)], with the default separators. *)
Fixpoint dumps (v : pyval) : string :=
  match v with
  | PNone => "null"
  | PBool true => "true"
  | PBool false => "false"
  | PInt z => str_of_int z
  | PStr s => json_string s
  | PList l => "[" ++ String.concat ", " (map dumps l) ++ "]"
  | PDict d =>
      "{" ++ String.concat ", "
               (map (fun kv : string * pyval =>
                       let (k, x) := kv in json_string k ++ ": " ++ dumps x)
                    d)
          ++ "}"
  end.

Fixpoint spaces (n : nat) : string :=
  match n with
  | O => EmptyString
  | S n' => String " " (spaces n')
  end.

(** [json.dumps(v, indent=step)], at nesting depth [depth]. *)
Fixpoint dumps_at (step depth : nat) (v : pyval) : string :=
  let inner := nl ++ spaces (step * S depth) in
  let outer := nl ++ spaces (step * depth) in
  match v with
  | PList ((_ :: _) as l) =>
      "[" ++ inner
          ++ String.concat ("," ++ inner) (map (dumps_at step (S depth)) l)
          ++ outer ++ "]"
  | PDict ((_ :: _) as d) =>
      "{" ++ inner
          ++ String.concat ("," ++ inner)
               (map (fun kv : string * pyval =>
                       let (k, x) := kv in
                       json_string k ++ ": " ++ dumps_at step (S depth) x)
                    d)
          ++ outer ++ "}"
  | _ => dumps v
  end.

Definition dumps_indent (indent : Z) (v : pyval) : string :=
  dumps_at (Z.to_nat indent) 0 v.

Fixpoint contains (c : ascii) (s : string) : bool :=
  match s with
  | EmptyString => false
  | String c' s' => (Ascii.eqb c c' || contains c s')%bool
  end.

(** [repr] of a str: single quotes, unless only those occur in it. *)
Definition repr_string (s : string) : string :=
  let quote :=
    if (contains sq_char s && negb (contains dq_char s))%bool
    then dq_char else sq_char in
  String quote (escape_all quote s ++ String quote EmptyString).

(** [repr(v)] *)
Fixpoint repr (v : pyval) : string :=
  match v with
  | PNone => "None"
  | PBool true => "True"
  | PBool false => "False"
  | PInt z => str_of_int z
  | PStr s => repr_string s
  | PList l => "[" ++ String.concat ", " (map repr l) ++ "]"
  | PDict d =>
      "{" ++ String.concat ", "
               (map (fun kv : string * pyval =>
                       let (k, x) := kv in repr_string k ++ ": " ++ repr x)
                    d)
          ++ "}"
  end.

#[export] Instance runtime : PyRuntime := {|
  json_loads := loads;
  json_dumps := dumps;
  json_dumps_indent := dumps_indent;
  py_repr := repr;
  json_loads_empty_object := eq_refl
|}.

End RefRuntime.

(** ** A host for the examples

    A world of text files and two counters, and external tools that behave
    the same at every call: each takes some seconds, exits with a code,
    prints to its two streams and may write a text to the [output_path] of
    its request. *)

Module Demo.

Record World : Type := {
  files : list (string * string);
  runs : nat;
  dirs : nat
}.

Record Tool : Type := {
  seconds : Z;
  exit_code : Z;
  out : string;
  err : string;
  writes : option string
}.

(** The tool behind each script path. *)
Definition Scenario : Type := string -> Tool.

Fixpoint file_get (path : string) (fs : list (string * string))
  : option string :=
  match fs with
  | [] => None
  | (p, text) :: fs' => if String.eqb path p then Some text else file_get path fs'
  end.

Definition output_path_of (input : string) : option string :=
  match RefRuntime.loads input with
  | Some (PDict d) =>
      match dict_get "output_path" d with
      | Some (PStr p) => Some p
      | _ => None
      end
  | _ => None
  end.

Definition run (tools : Scenario) (argv : list string) (input : string)
  (timeout : Z) (w : World) : proc_outcome * World :=
  match argv with
  | [_; script] =>
      let t := tools script in
      if timeout <? seconds t then (Overran, w)
      else
        (Completed {| returncode := exit_code t; stdout := out t;
                      stderr := err t |},
         match writes t, output_path_of input with
         | Some text, Some p =>
             {| files := (p, text) :: files w; runs := runs w;
                dirs := dirs w |}
         | _, _ => w
         end)
  | _ =>
      (Completed {| returncode := 127; stdout := EmptyString;
                    stderr := "usage" |}, w)
  end.

Definition host (tools : Scenario) : Host World := {|
  os_run := run tools;
  os_read := fun path w => file_get path (files w);
  os_mkdtemp := fun prefix w =>
    (Some ("/tmp/" ++ prefix ++ str_of_int (Z.of_nat (dirs w))),
     {| files := files w; runs := runs w; dirs := S (dirs w) |});
  os_run_id := fun w =>
    ("0000-run-" ++ str_of_int (Z.of_nat (runs w)),
     {| files := files w; runs := S (runs w); dirs := dirs w |});
  repo_root := "/repo"
|}.

Definition empty : State World := {|
  world := {| files := []; runs := 0; dirs := 0 |};
  invocations := [];
  pending := []
|}.

Definition generate_nu : string := "/repo/bitter-truth/tools/generate.nu".
Definition run_tool_nu : string := "/repo/bitter-truth/tools/run-tool.nu".
Definition validate_nu : string := "/repo/bitter-truth/tools/validate.nu".

Definition prints (v : pyval) (writes_ : option string) : Tool := {|
  seconds := 1;
  exit_code := 0;
  out := RefRuntime.dumps v;
  err := EmptyString;
  writes := writes_
|}.

Definition succeeds : Tool := prints (PDict [("success", PBool true)]) None.

Definition rejects : Tool :=
  prints (PDict [("data",
                  PDict [("valid", PBool false);
                         ("errors", PList [PStr "field ok is missing"])])])
    None.

(** The validator never accepts what the generated tool wrote. *)
Definition stubborn : Scenario :=
  fun script =>
    if String.eqb script run_tool_nu
    then prints (PDict [("success", PBool true)]) (Some "{}")
    else if String.eqb script validate_nu then rejects
    else succeeds.

(** The validator accepts what the generated tool wrote. *)
Definition accepting : Scenario :=
  fun script =>
    if String.eqb script run_tool_nu
    then prints (PDict [("success", PBool true)]) (Some "{}")
    else if String.eqb script validate_nu
    then prints (PDict [("data", PDict [("valid", PBool true)])]) None
    else succeeds.

(** The same, and the generated tool writes no output file. *)
Definition silent : Scenario :=
  fun script => if String.eqb script validate_nu then rejects else succeeds.

(** The generator exits with code 1. *)
Definition broken_generator : Scenario :=
  fun script =>
    if String.eqb script generate_nu
    then {| seconds := 1; exit_code := 1; out := EmptyString;
            err := "model unavailable"; writes := None |}
    else stubborn script.

(** The generator needs 301 seconds. *)
Definition slow_generator : Scenario :=
  fun script =>
    if String.eqb script generate_nu
    then {| seconds := 301; exit_code := 0;
            out := RefRuntime.dumps (PDict [("success", PBool true)]);
            err := EmptyString; writes := None |}
    else stubborn script.

(** The generator prints plain text. *)
Definition chatty_generator : Scenario :=
  fun script =>
    if String.eqb script generate_nu
    then {| seconds := 1; exit_code := 0; out := "wrote tool.nu";
            err := EmptyString; writes := None |}
    else stubborn script.

(** The client's call of the examples, on the empty state, and the worker
    taking the runs it leaves. *)
Definition echo_input (max_attempts_ : option Z)
  (carried : option RetryState) : WorkflowInput := {|
  contract := "contracts/echo.yaml";
  task := "Generate an echo tool";
  input_json := Some "{}";
  max_attempts := max_attempts_;
  _retry_state := carried
|}.

Definition call (tools : Scenario) (max_attempts_ : option Z)
  : result RunOutputs * State World :=
  run_contract_loop (runtime := RefRuntime.runtime) (host := host tools)
    "contracts/echo.yaml" "Generate an echo tool" None max_attempts_ empty.

Definition retries (tools : Scenario) (n : nat) (s : State World)
  : list (result RunOutputs) * State World :=
  worker (runtime := RefRuntime.runtime) (host := host tools) n s.

(** Step outputs of a first attempt that validation rejected. *)
Definition init_data : InitData := {|
  init_trace_id := "0000-run-0";
  init_work_dir := "/tmp/fire-flow-0000-run-0";
  init_attempt := 0;
  init_max_attempts := 2;
  init_feedback := "Initial generation"
|}.

Definition gen_data : pydict :=
  [("tool_path", PStr "/tmp/fire-flow-0000-run-0/tool.nu");
   ("attempt", PInt 1);
   ("success", PBool true)].

Definition exec_data : ExecData := {|
  exec_output_path := "/tmp/fire-flow-0000-run-0/output.json";
  exec_logs_path := "/tmp/fire-flow-0000-run-0/logs.json";
  execution_result := PDict [("success", PBool true)]
|}.

Definition val_data : ValData := {|
  valid := PBool false;
  validation_result := PDict [("data", PDict [("valid", PBool false)])]
|}.

End Demo.

(** ** Effects of a computation *)

(** A computation that does nothing to the worker's state but invoke tools:
    the log grows at its end and no run is spawned. *)
Definition invokes_only {W A : Type} (m : Step W A) : Prop :=
  forall s,
    exists l,
      invocations (snd (m s)) = (invocations s ++ l)%list
      /\ pending (snd (m s)) = pending s.

(** ** The specification's reading

    What the specification says in its own words, to compare the code
    with. *)

(** The decision policy: success when validation reports valid, else
    escalate when the attempt has reached the ceiling, else retry. *)
Definition spec_decision (valid_ : bool) (attempt max_attempts_ : Z)
  : string :=
  if valid_ then "success"
  else if max_attempts_ <=? attempt then "escalate"
  else "retry".

(** The flag a validator response [{data: {valid: boolean}, ...}] reports;
    an absent flag, and an absent [data], count as [false].  [None]: the
    response has another shape. *)
Definition spec_valid_flag (result : pyval) : option bool :=
  match result with
  | PDict d =>
      match dict_get "data" d with
      | None => Some false
      | Some (PDict data) =>
          match dict_get "valid" data with
          | None => Some false
          | Some (PBool b) => Some b
          | Some _ => None
          end
      | Some _ => None
      end
  | _ => None
  end.

(** A generator response without [success: true]: no such entry, or one
    that is false, null, zero or empty. *)
Definition spec_lacks_success (result : pyval) : bool :=
  match result with
  | PDict d =>
      match dict_get "success" d with
      | None => true
      | Some v => negb (py_truthy v)
      end
  | _ => true
  end.

(** What the caller of a run sees of it: the status it returned, or that it
    failed. *)
Definition run_status (r : result RunOutputs) : string :=
  match r with
  | Ok o => status (out_retry_or_complete o)
  | Raise _ => "failed"
  end.

(** An entry of the request of a logged invocation. *)
Definition request_field (k : string) (entry : string * pyval)
  : option pyval :=
  match snd entry with
  | PDict d => dict_get k d
  | _ => None
  end.

(** The Generate invocations in a log of tool invocations. *)
Definition generate_invocations (root : string)
  (log : list (string * pyval)) : list (string * pyval) :=
  filter (fun entry =>
            String.eqb (fst entry)
              (path_join (path_join (path_join root "bitter-truth") "tools")
                 "generate.nu"))
    log.

(** An environment in which a run cannot but fail validation: temporary
    directories can be made, the generator exits with status zero and prints
    a JSON object with a true [success] and no [attempt] of its own, the
    executor comes to an end, and the validator exits with status zero and
    prints a response that reports [valid = false]. *)
Definition always_rejecting {W : Type} {runtime : PyRuntime} {host : Host W}
  : Prop :=
  (forall prefix w, exists dir w', os_mkdtemp prefix w = (Some dir, w'))
  /\ (forall input w,
        exists p w' items,
          os_run ["nu"; path_join TOOLS_DIR "generate.nu"] input 300 w
            = (Completed p, w')
          /\ returncode p = 0
          /\ json_loads (stdout p) = Some (PDict items)
          /\ (exists v, dict_get "success" items = Some v
                        /\ py_truthy v = true)
          /\ dict_get "attempt" items = None)
  /\ (forall input w,
        exists p w',
          os_run ["nu"; path_join TOOLS_DIR "run-tool.nu"] input 300 w
            = (Completed p, w'))
  /\ (forall input w,
        exists p w' response,
          os_run ["nu"; path_join TOOLS_DIR "validate.nu"] input 300 w
            = (Completed p, w')
          /\ returncode p = 0
          /\ json_loads (stdout p) = Some response
          /\ spec_valid_flag response = Some false).

(** ** Requests and traces *)

(** The request [execute] sends to the executor, [execute_input] in the
    source; [tool_path] is [gen_data["tool_path"]] and [tool_input] is the
    decoded [input_json]. *)
Definition execute_input (init_data : InitData) (tool_path tool_input : pyval)
  : pyval :=
  PDict [("tool_path", tool_path);
         ("tool_input", tool_input);
         ("output_path",
          PStr (path_join (init_work_dir init_data) "output.json"));
         ("logs_path",
          PStr (path_join (init_work_dir init_data) "logs.json"));
         ("context", PDict [("trace_id", PStr (init_trace_id init_data))])].

(** The request [validate] sends to the validator, [validate_input] in the
    source. *)
Definition validate_input (init_data : InitData) (exec_data : ExecData)
  (workflow_input : WorkflowInput) : pyval :=
  PDict [("contract_path", PStr (contract workflow_input));
         ("output_path", PStr (exec_output_path exec_data));
         ("server", PStr "local");
         ("context", PDict [("trace_id", PStr (init_trace_id init_data))])].

(** The scripts of one attempt, in the order of the steps. *)
Definition attempt_scripts {W : Type} {host : Host W} : list string :=
  [path_join TOOLS_DIR "generate.nu";
   path_join TOOLS_DIR "run-tool.nu";
   path_join TOOLS_DIR "validate.nu"].

(** The dict the invoker returns for a child process that exits with a
    nonzero status. *)
Definition failure_result (p : CompletedProcess) : pyval :=
  PDict [("success", PBool false);
         ("error",
          PStr (if String.eqb (stderr p) EmptyString
                then "Exit code: " ++ str_of_int (returncode p)
                else stderr p));
         ("stdout", PStr (stdout p))].

Definition is_dict (v : pyval) : bool :=
  match v with PDict _ => true | _ => false end.

(** A number, as [>=] against an int takes it. *)
Definition is_number (v : pyval) : bool :=
  match v with PInt _ | PBool _ => true | _ => false end.


(** ** More example hosts *)

Module Cases.

(** The executor exits with code 2 and writes nothing. *)
Definition broken_executor : Demo.Scenario :=
  fun script =>
    if String.eqb script Demo.run_tool_nu
    then {| Demo.seconds := 1; Demo.exit_code := 2;
            Demo.out := "partial output"; Demo.err := EmptyString;
            Demo.writes := None |}
    else Demo.stubborn script.

(** The validator exits with code 1. *)
Definition broken_validator : Demo.Scenario :=
  fun script =>
    if String.eqb script Demo.validate_nu
    then {| Demo.seconds := 1; Demo.exit_code := 1;
            Demo.out := EmptyString; Demo.err := "datacontract: not found";
            Demo.writes := None |}
    else Demo.accepting script.

(** The validator prints a JSON list. *)
Definition listing_validator : Demo.Scenario :=
  fun script =>
    if String.eqb script Demo.validate_nu
    then Demo.prints (PList [PStr "ok"]) None
    else Demo.accepting script.

(** The generator sends back the [attempt] of its request and a tool path
    of its own. *)
Definition echoing_generator : Demo.Scenario :=
  fun script =>
    if String.eqb script Demo.generate_nu
    then Demo.prints (PDict [("success", PBool true);
                             ("attempt", PStr "1/5");
                             ("tool_path", PStr "/opt/tools/echo.nu")])
           None
    else Demo.stubborn script.

(** A host on which no temporary directory can be made. *)
Definition full_disk (tools : Demo.Scenario) : Host Demo.World := {|
  os_run := Demo.run tools;
  os_read := fun path w => Demo.file_get path (Demo.files w);
  os_mkdtemp := fun prefix w => (None, w);
  os_run_id := fun w =>
    ("0000-run-" ++ str_of_int (Z.of_nat (Demo.runs w)),
     {| Demo.files := Demo.files w; Demo.runs := S (Demo.runs w);
        Demo.dirs := Demo.dirs w |});
  repo_root := "/repo"
|}.

(** A state in which the output file of the first run is there. *)
Definition with_output : State Demo.World := {|
  world := {| Demo.files :=
                [("/tmp/fire-flow-0000-run-0/output.json", "{}")];
              Demo.runs := 1; Demo.dirs := 1 |};
  invocations := [];
  pending := []
|}.

(** One run of the workflow on an example host, from the empty state. *)
Definition run (tools : Demo.Scenario) (max_attempts_ : option Z)
  : result RunOutputs * State Demo.World :=
  ContractLoopWorkflow (runtime := RefRuntime.runtime)
    (host := Demo.host tools) "0000-run-0"
    (Demo.echo_input max_attempts_ None) Demo.empty.

End Cases.

(** ** The command line of the client *)



(** ** The tagging scripts

    The pure functions of [scripts/add-infrastructure-tags.py] and
    [scripts/add-tags-to-kanban.py].  A string stands for the UTF-8 bytes of
    a Python str, whose order, prefixes and substrings are those of the
    str. *)

Module Scripts.

Definition str_compare : string -> string -> comparison :=
  OrdersEx.String_as_OT.compare.

(** [s < t] on str. *)
Definition str_lt (s t : string) : Prop := str_compare s t = Lt.

(** One more element in [sorted(list(set(...)))]: a list in ascending order
    without duplicates takes [t] at its place, unless it has it. *)
Fixpoint insert_tag (t : string) (l : list string) : list string :=
  match l with
  | [] => [t]
  | u :: l' =>
      match str_compare t u with
      | Lt => t :: u :: l'
      | Eq => u :: l'
      | Gt => u :: insert_tag t l'
      end
  end.

(** [sorted(list(set(l)))]: the distinct strings of [l] in ascending
    order. *)
Definition sorted_set (l : list string) : list string :=
  fold_right insert_tag [] l.

(** [merge_tags]: merge existing and new tags without duplication. *)
Definition merge_tags (existing new : list string) : list string :=
  let combined := (existing ++ new)%list in
  sorted_set combined.

(** [p in s] on str. *)
Fixpoint contains (p s : string) : bool :=
  (String.prefix p s
   || match s with
      | EmptyString => false
      | String _ s' => contains p s'
      end)%bool.

Definition is_lower_alnum (c : ascii) : bool :=
  let n := nat_of_ascii c in
  ((Nat.leb 97 n && Nat.leb n 122) || (Nat.leb 48 n && Nat.leb n 57))%bool.

(** The longest prefix of [s] whose characters satisfy [f]. *)
Fixpoint take_while (f : ascii -> bool) (s : string) : string :=
  match s with
  | EmptyString => EmptyString
  | String c s' => if f c then String c (take_while f s') else EmptyString
  end.

(** [f] holds of every character of [s]. *)
Fixpoint string_forall (f : ascii -> bool) (s : string) : bool :=
  match s with
  | EmptyString => true
  | String c s' => (f c && string_forall f s')%bool
  end.

(** [s] is empty or starts with a character that [f] rejects. *)
Definition stops (f : ascii -> bool) (s : string) : bool :=
  match s with
  | EmptyString => true
  | String c _ => negb (f c)
  end.

(** [s] without its prefix [p], when it has it. *)
Fixpoint strip_prefix (p s : string) : option string :=
  match p, s with
  | EmptyString, _ => Some s
  | String a p', String b s' =>
      if Ascii.eqb a b then strip_prefix p' s' else None
  | String _ _, EmptyString => None
  end.

(** [s.split('.')[0]] *)
Definition before_dot (s : string) : string :=
  take_while (fun c => negb (Ascii.eqb c ".")) s.

Definition EPIC_MAPPING : list (string * string) :=
  [("11f", "tcr-enforcer-epic");
   ("4ik", "overlayfs-epic");
   ("5zs", "implementation-complete");
   ("8so", "tcr-complete");
   ("9dx", "tcr-enforcer-epic")].

Fixpoint mapping_get (k : string) (m : list (string * string))
  (default : string) : string :=
  match m with
  | [] => default
  | (k', v) :: m' => if String.eqb k k' then v else mapping_get k m' default
  end.

(** [get_epic]: determine the epic from the Beads id;
    [re.match(r"Fire-Flow-([a-z0-9]+)", beads_id)] matches at the start of
    the id and its group is the longest run of [a-z0-9] that follows. *)
Definition get_epic (beads_id : string) : string :=
  match strip_prefix "Fire-Flow-" beads_id with
  | Some rest =>
      match take_while is_lower_alnum rest with
      | EmptyString => "general"
      | prefix =>
          let base_id := before_dot prefix in
          mapping_get base_id EPIC_MAPPING "general"
      end
  | None => "general"
  end.

(** [get_type_and_status]: infer task type and status from the title;
    [lower] is [str.lower]. *)
Definition get_type_and_status (lower : string -> string) (title : string)
  : string * string :=
  let title_lower := lower title in
  let task_type :=
    if (contains "bug" title_lower || contains "fix" title_lower)%bool
    then "bug"
    else if (contains "implement" title_lower
             || contains "add" title_lower)%bool
    then "feature"
    else if (contains "document" title_lower
             || contains "readme" title_lower)%bool
    then "docs"
    else if (contains "test" title_lower
             || contains "testing" title_lower)%bool
    then "testing"
    else if (contains "improve" title_lower
             || contains "refactor" title_lower
             || contains "consolidate" title_lower)%bool
    then "enhancement"
    else "task" in
  let status :=
    if (contains "complete" title_lower || contains "done" title_lower)%bool
    then "done"
    else if (contains "test" title_lower || contains "unit" title_lower)%bool
    then "testing"
    else "backlog" in
  (task_type, status).

End Scripts.

(** * Properties *)

(** ** The monad *)

Lemma bind_ok {S A B : Type} (m : M S A) (k : A -> M S B) (s s1 : S) (a : A) :
  m s = (Ok a, s1) -> bind m k s = k a s1.
Proof. intros H. unfold bind. now rewrite H. Qed.

Lemma bind_raise {S A B : Type} (m : M S A) (k : A -> M S B) (s s1 : S)
  (e : exn) :
  m s = (Raise e, s1) -> bind m k s = (Raise e, s1).
Proof. intros H. unfold bind. now rewrite H. Qed.

Lemma bind_ok_inv {S A B : Type} (m : M S A) (k : A -> M S B) (s s' : S)
  (b : B) :
  bind m k s = (Ok b, s') ->
  exists a s1, m s = (Ok a, s1) /\ k a s1 = (Ok b, s').
Proof.
  unfold bind. destruct (m s) as [[a | e] s1]; intros H.
  - now exists a, s1.
  - discriminate H.
Qed.

(** ** The tool invoker *)

Section ToolInvoker.

Context {W : Type} {runtime : PyRuntime} {host : Host W}.

Lemma run_nu_script_completed (script_path : string) (input_data : pyval)
  (s : State W) (p : CompletedProcess) (w : W) :
  os_run ["nu"; script_path] (json_dumps input_data) 300 (world s)
    = (Completed p, w) ->
  run_nu_script script_path input_data s =
    (Ok (if negb (returncode p =? 0) then
           PDict [("success", PBool false);
                  ("error",
                   PStr (if String.eqb (stderr p) EmptyString
                         then "Exit code: " ++ str_of_int (returncode p)
                         else stderr p));
                  ("stdout", PStr (stdout p))]
         else
           match json_loads (stdout p) with
           | Some v => v
           | None => PDict [("success", PBool true);
                            ("raw_output", PStr (stdout p))]
           end),
     invoked s script_path input_data w).
Proof.
  intros H.
  unfold run_nu_script, bind, note_invocation, subprocess_run. cbn.
  rewrite H.
  destruct (returncode p =? 0); cbn; [ | reflexivity ].
  unfold try_except, loads.
  destruct (json_loads (stdout p)); reflexivity.
Qed.

Lemma run_nu_script_overran (script_path : string) (input_data : pyval)
  (s : State W) (w : W) :
  os_run ["nu"; script_path] (json_dumps input_data) 300 (world s)
    = (Overran, w) ->
  run_nu_script script_path input_data s =
    (Raise SubprocessTimeoutExpired, invoked s script_path input_data w).
Proof.
  intros H.
  unfold run_nu_script, bind, note_invocation, subprocess_run. cbn.
  now rewrite H.
Qed.

(** Whatever the child process does, an invocation adds itself to the log and
    nothing else, and spawns no run. *)
Lemma run_nu_script_effect (script_path : string) (input_data : pyval)
  (s : State W) :
  exists w,
    snd (run_nu_script script_path input_data s)
      = invoked s script_path input_data w.
Proof.
  destruct (os_run ["nu"; script_path] (json_dumps input_data) 300 (world s))
    as [[p | ] w] eqn:H; exists w.
  - now rewrite (run_nu_script_completed _ _ _ _ _ H).
  - now rewrite (run_nu_script_overran _ _ _ _ H).
Qed.

(** C8: when the child process exits with status zero, the invoker returns
    the parsed standard output as it is when it parses as JSON, and the dict
    [{success: true, raw_output: <stdout>}] when it does not; in both cases it
    returns and does not raise. *)
Theorem run_nu_script_zero_exit (script_path : string) (input_data : pyval)
  (s : State W) (p : CompletedProcess) (w : W) :
  os_run ["nu"; script_path] (json_dumps input_data) 300 (world s)
    = (Completed p, w) ->
  returncode p = 0 ->
  (forall v, json_loads (stdout p) = Some v ->
             fst (run_nu_script script_path input_data s) = Ok v)
  /\ (json_loads (stdout p) = None ->
      fst (run_nu_script script_path input_data s)
        = Ok (PDict [("success", PBool true);
                     ("raw_output", PStr (stdout p))])).
Proof.
  intros Hrun Hzero.
  rewrite (run_nu_script_completed _ _ _ _ _ Hrun), Hzero. cbn.
  split.
  - intros v Hv. now rewrite Hv.
  - intros Hv. now rewrite Hv.
Qed.

(** C5, as the code has it: when the child process is not done within the
    300 seconds, the invoker returns no result at all: the [TimeoutExpired]
    of [subprocess.run] is raised to the calling step, after the child has
    been stopped and with the invocation in the log. *)
Theorem run_nu_script_timeout_raises (script_path : string)
  (input_data : pyval) (s : State W) (w : W) :
  os_run ["nu"; script_path] (json_dumps input_data) 300 (world s)
    = (Overran, w) ->
  run_nu_script script_path input_data s
    = (Raise SubprocessTimeoutExpired, invoked s script_path input_data w)
  /\ forall result, fst (run_nu_script script_path input_data s) <> Ok result.
Proof.
  intros Hrun.
  rewrite (run_nu_script_overran _ _ _ _ Hrun).
  split; [ reflexivity | ]. intros result H. discriminate H.
Qed.

End ToolInvoker.

(** ** Examples of the tool invoker *)

Lemma run_nu_script_zero_exit_witness :
  fst (@run_nu_script _ RefRuntime.runtime (Demo.host Demo.chatty_generator)
         Demo.generate_nu (PDict [("task", PStr "echo")]) Demo.empty)
    = Ok (PDict [("success", PBool true);
                 ("raw_output", PStr "wrote tool.nu")])
  /\ fst (@run_nu_script _ RefRuntime.runtime (Demo.host Demo.stubborn)
            Demo.validate_nu (PDict [("server", PStr "local")]) Demo.empty)
    = Ok (PDict [("data",
                  PDict [("valid", PBool false);
                         ("errors",
                          PList [PStr "field ok is missing"])])]).
Proof.
  split.
  - apply (@run_nu_script_zero_exit _ RefRuntime.runtime
             (Demo.host Demo.chatty_generator) Demo.generate_nu
             (PDict [("task", PStr "echo")]) Demo.empty
             {| returncode := 0; stdout := "wrote tool.nu";
                stderr := EmptyString |}
             (world Demo.empty));
      vm_compute; reflexivity.
  - apply (@run_nu_script_zero_exit _ RefRuntime.runtime
             (Demo.host Demo.stubborn) Demo.validate_nu
             (PDict [("server", PStr "local")]) Demo.empty
             {| returncode := 0; stdout := Demo.out Demo.rejects;
                stderr := EmptyString |}
             (world Demo.empty));
      vm_compute; reflexivity.
Defined.

Lemma run_nu_script_timeout_raises_witness :
  fst (@run_nu_script _ RefRuntime.runtime (Demo.host Demo.slow_generator)
         Demo.generate_nu (PDict [("task", PStr "echo")]) Demo.empty)
    = Raise SubprocessTimeoutExpired.
Proof.
  apply (f_equal fst
           (proj1 (@run_nu_script_timeout_raises _ RefRuntime.runtime
                     (Demo.host Demo.slow_generator) Demo.generate_nu
                     (PDict [("task", PStr "echo")]) Demo.empty
                     (world Demo.empty) eq_refl))).
Defined.

(** C5, as the specification has it, fails: a generator that needs 301
    seconds is stopped after 300, and the invoker returns no dict with
    [success: false] and [error: "timeout"]: it raises. *)
Lemma timeout_is_not_a_result :
  fst (os_run (Host := Demo.host Demo.slow_generator)
         ["nu"; Demo.generate_nu]
         (RefRuntime.dumps (PDict [("task", PStr "echo")])) 300
         (world Demo.empty)) = Overran
  /\ ~ exists d,
        fst (@run_nu_script _ RefRuntime.runtime
               (Demo.host Demo.slow_generator) Demo.generate_nu
               (PDict [("task", PStr "echo")]) Demo.empty) = Ok (PDict d)
        /\ dict_get "success" d = Some (PBool false)
        /\ dict_get "error" d = Some (PStr "timeout").
Proof.
  split; [ reflexivity | ].
  intros [d [H _]]. vm_compute in H. discriminate H.
Qed.

(** ** The steps *)

Section Steps.

Context {W : Type} {runtime : PyRuntime} {host : Host W}.

(** [init] makes the work directory and touches neither the log nor the
    spawned runs; what it returns does not look at ["_retry_state"]. *)
Lemma init_ok_inv (run_id : string) (workflow_input : WorkflowInput)
  (s s0 : State W) (init_data : InitData) :
  init run_id workflow_input s = (Ok init_data, s0) ->
  init_trace_id init_data = run_id
  /\ init_attempt init_data = 0
  /\ init_feedback init_data = "Initial generation"
  /\ init_max_attempts init_data
       = match max_attempts workflow_input with Some n => n | None => 5 end
  /\ invocations s0 = invocations s
  /\ pending s0 = pending s.
Proof.
  unfold init, bind, mkdtemp, ret.
  destruct (os_mkdtemp _ (world s)) as [[dir | ] w]; intros H.
  - injection H as <- <-. cbn. repeat split; reflexivity.
  - discriminate H.
Qed.

(** A dict written over keeps its keys. *)
Lemma dict_get_set_same (k : string) (v : pyval) (d : pydict) :
  dict_get k (dict_set k v d) = Some v.
Proof.
  induction d as [ | [k' v'] d IH]; cbn.
  - now rewrite String.eqb_refl.
  - destruct (String.eqb k k') eqn:E; cbn; rewrite E; [ reflexivity | exact IH ].
Qed.

Lemma dict_get_set_other (k k0 : string) (v : pyval) (d : pydict) :
  String.eqb k k0 = false ->
  dict_get k (dict_set k0 v d) = dict_get k d.
Proof.
  intros Hk. induction d as [ | [k' v'] d IH]; cbn.
  - now rewrite Hk.
  - destruct (String.eqb k0 k') eqn:E; cbn.
    + apply String.eqb_eq in E. subst k'. now rewrite Hk.
    + destruct (String.eqb k k'); [ reflexivity | exact IH ].
Qed.

Lemma dict_get_update (k : string) (e d : pydict) :
  dict_get k (dict_update d e)
    = match dict_get k (rev e) with
      | Some v => Some v
      | None => dict_get k d
      end.
Proof.
  unfold dict_update. revert d.
  induction e as [ | [k' v'] e IH]; intros d; cbn.
  - reflexivity.
  - rewrite IH.
    assert (Hrev : forall l : pydict,
               dict_get k (l ++ [(k', v')])%list
                 = match dict_get k l with
                   | Some v => Some v
                   | None => if String.eqb k k' then Some v' else None
                   end).
    { induction l as [ | [k2 v2] l IHl]; cbn.
      - reflexivity.
      - destruct (String.eqb k k2); [ reflexivity | exact IHl ]. }
    rewrite Hrev.
    destruct (dict_get k (rev e)); [ reflexivity | ].
    destruct (String.eqb k k') eqn:E.
    + apply String.eqb_eq in E. subst k'. apply dict_get_set_same.
    + now apply dict_get_set_other.
Qed.

(** What [generate] returns always has its two own entries, unless the
    generator's response writes over them. *)
Lemma generate_ok_inv (init_data : InitData) (workflow_input : WorkflowInput)
  (s s1 : State W) (gen_data : pydict) :
  generate init_data workflow_input s = (Ok gen_data, s1) ->
  exists items,
    run_nu_script (path_join TOOLS_DIR "generate.nu")
      (generate_input init_data workflow_input) s = (Ok (PDict items), s1)
    /\ spec_lacks_success (PDict items) = false
    /\ gen_data
         = dict_update
             [("tool_path",
               PStr (path_join (init_work_dir init_data) "tool.nu"));
              ("attempt", PInt (init_attempt init_data + 1))] items.
Proof.
  unfold generate. intros H.
  apply bind_ok_inv in H as (result & s' & Hrun & H).
  destruct result as [ | b | z | t | l | items]; try discriminate H.
  cbn in H. unfold bind, ret in H. cbn in H.
  exists items. unfold spec_lacks_success.
  destruct (dict_get "success" items) as [v | ]; cbn in H.
  - destruct (py_truthy v); cbn in H; [ | discriminate H ].
    injection H as <- <-. now rewrite Hrun.
  - discriminate H.
Qed.

Lemma generate_has_attempt (init_data : InitData)
  (workflow_input : WorkflowInput) (s s1 : State W) (gen_data : pydict) :
  generate init_data workflow_input s = (Ok gen_data, s1) ->
  (exists a, dict_get "attempt" gen_data = Some a)
  /\ exists t, dict_get "tool_path" gen_data = Some t.
Proof.
  intros H. apply generate_ok_inv in H as (items & _ & _ & ->).
  rewrite !dict_get_update. cbn.
  split.
  - destruct (dict_get "attempt" (rev items)) as [a | ]; eauto.
  - destruct (dict_get "tool_path" (rev items)) as [t | ]; eauto.
Qed.

(** C7: when the generator's result lacks [success: true] (as after a
    nonzero exit), the run ends at the Generate step with an exception: the
    generator is the only tool invoked, so neither Execute nor Validate has
    run, and no retry run is spawned. *)
Theorem generate_failure_is_fatal (run_id : string)
  (workflow_input : WorkflowInput) (s s0 s1 : State W)
  (init_data : InitData) (result : pyval) :
  init run_id workflow_input s = (Ok init_data, s0) ->
  run_nu_script (path_join TOOLS_DIR "generate.nu")
    (generate_input init_data workflow_input) s0 = (Ok result, s1) ->
  spec_lacks_success result = true ->
  (exists e, ContractLoopWorkflow run_id workflow_input s = (Raise e, s1))
  /\ invocations s1
       = (invocations s
            ++ [(path_join TOOLS_DIR "generate.nu",
                 generate_input init_data workflow_input)])%list
  /\ pending s1 = pending s.
Proof.
  intros Hinit Hrun Hlacks.
  split.
  - unfold ContractLoopWorkflow.
    rewrite (bind_ok _ _ _ _ _ Hinit).
    assert (Hgen : exists e,
               generate init_data workflow_input s0 = (Raise e, s1)).
    { unfold generate. rewrite (bind_ok _ _ _ _ _ Hrun).
      destruct result as [ | b | z | t | l | items];
        try (eexists; reflexivity).
      cbn in Hlacks. unfold bind, py_get, ret. cbn.
      destruct (dict_get "success" items) as [v | ].
      - rewrite Hlacks. cbn. eexists; reflexivity.
      - cbn. eexists; reflexivity. }
    destruct Hgen as [e Hgen]. exists e.
    now rewrite (bind_raise _ _ _ _ _ Hgen).
  - destruct (run_nu_script_effect (path_join TOOLS_DIR "generate.nu")
                (generate_input init_data workflow_input) s0) as [w Hw].
    rewrite Hrun in Hw. cbn in Hw. subst s1. cbn.
    apply init_ok_inv in Hinit as (_ & _ & _ & _ & -> & ->).
    split; reflexivity.
Qed.

(** C9: when the output file cannot be read, the feedback for a retry is
    still made: the counter line, the dump of the validation result and the
    instruction, without the output lines; and the run goes on to spawn the
    retry. *)
Theorem collect_feedback_without_output (a0 a : pyval) (init_data : InitData)
  (exec_data : ExecData) (val_data : ValData) (gen_data : pydict)
  (workflow_input : WorkflowInput) (s : State W) :
  dict_get "attempt" gen_data = Some a ->
  os_read (exec_output_path exec_data) (world s) = None ->
  collect_feedback (DecideRetry a0) init_data exec_data val_data gen_data s
    = (Ok (Some (String.concat nl
                   ["ATTEMPT " ++ py_str a ++ "/"
                      ++ str_of_int (init_max_attempts init_data)
                      ++ " FAILED.";
                    EmptyString;
                    "CONTRACT ERRORS:";
                    json_dumps_indent 2 (validation_result val_data);
                    EmptyString;
                    "FIX THE NUSHELL SCRIPT TO SATISFY THE CONTRACT."])),
       s)
  /\ exists s',
       (feedback_data <- collect_feedback (DecideRetry a0) init_data
                           exec_data val_data gen_data ;;
        retry_or_complete (DecideRetry a0) feedback_data init_data exec_data
          gen_data workflow_input) s
         = (Ok (StatusRetrying a), s').
Proof.
  intros Hattempt Hread.
  assert (H : collect_feedback (DecideRetry a0) init_data exec_data val_data
                gen_data s
              = (Ok (Some (String.concat nl
                             (feedback_parts init_data val_data a))), s)).
  { unfold collect_feedback, bind, py_getitem, try_except, open_read, ret.
    cbn. rewrite Hattempt. cbn. now rewrite Hread. }
  split; [ exact H | ].
  rewrite (bind_ok _ _ _ _ _ H).
  unfold retry_or_complete, bind, py_getitem, spawn_workflow, ret.
  rewrite Hattempt. cbn. eexists; reflexivity.
Qed.

(** C10: an [input_json] that is not JSON makes the Execute step raise the
    decoding error before any tool is invoked; an omitted [input_json] is
    the empty object, both in the step and in the client. *)
Theorem execute_input_json (init_data : InitData) (gen_data : pydict)
  (workflow_input : WorkflowInput) (s : State W) (tool_path : pyval) :
  dict_get "tool_path" gen_data = Some tool_path ->
  (forall text,
      input_json workflow_input = Some text ->
      json_loads text = None ->
      execute init_data gen_data workflow_input s
        = (Raise JSONDecodeError, s))
  /\ (input_json workflow_input = None ->
      invocations (snd (execute init_data gen_data workflow_input s))
        = (invocations s
             ++ [(path_join TOOLS_DIR "run-tool.nu",
                  PDict [("tool_path", tool_path);
                         ("tool_input", PDict []);
                         ("output_path",
                          PStr (path_join (init_work_dir init_data)
                                  "output.json"));
                         ("logs_path",
                          PStr (path_join (init_work_dir init_data)
                                  "logs.json"));
                         ("context",
                          PDict [("trace_id",
                                  PStr (init_trace_id init_data))])])])%list)
  /\ (forall contract_ task_ max_attempts_,
      run_contract_loop contract_ task_ None max_attempts_
        = run_contract_loop contract_ task_ (Some "{}") max_attempts_).
Proof.
  intros Htool. repeat split.
  - intros text Htext Hbad.
    unfold execute, bind, py_getitem, loads, ret, raise.
    now rewrite Htool, Htext, Hbad.
  - intros Hnone.
    unfold execute, py_getitem, loads.
    rewrite Htool, Hnone, json_loads_empty_object.
    unfold bind at 1. unfold ret at 1. unfold bind at 1. unfold ret at 1.
    match goal with
    | |- context [run_nu_script ?p ?i] =>
        destruct (run_nu_script_effect p i s) as [w Hw];
        unfold bind;
        destruct (run_nu_script p i s) as [[r | e] s1]
    end; cbn in *; now subst s1.
Qed.

(** On a response of the documented shape, [validate] finds the flag the
    response reports. *)
Lemma valid_flag_reported (result : pyval) (b : bool) (s : State W) :
  spec_valid_flag result = Some b ->
  valid_flag result s = (Ok (PBool b), s).
Proof.
  unfold spec_valid_flag. intros Hflag.
  destruct result as [ | ? | ? | ? | ? | items]; try discriminate Hflag.
  unfold valid_flag, bind, py_get, ret.
  destruct (dict_get "data" items) as [data | ].
  - destruct data as [ | ? | ? | ? | ? | data]; try discriminate Hflag.
    destruct (dict_get "valid" data) as [v | ].
    + destruct v; try discriminate Hflag. now injection Hflag as ->.
    + now injection Hflag as <-.
  - now injection Hflag as <-.
Qed.

(** C6: the Decide step follows the decision policy: success exactly when
    the validation result reports [valid = true]; otherwise escalate when the
    attempt has reached [max_attempts] and retry when it has not; and a result
    without the flag, or without [data], counts as [valid = false]. *)
Theorem decide_follows_policy (init_data : InitData) (gen_data : pydict)
  (result : pyval) (b : bool) (a : Z) (s : State W) :
  dict_get "attempt" gen_data = Some (PInt a) ->
  spec_valid_flag result = Some b ->
  (exists v d,
      valid_flag result s = (Ok v, s)
      /\ decide init_data gen_data
           {| valid := v; validation_result := result |} s = (Ok d, s)
      /\ decision d = spec_decision b a (init_max_attempts init_data)
      /\ (decision d = "success" <-> b = true)
      /\ (b = false ->
          decision d = if init_max_attempts init_data <=? a
                       then "escalate" else "retry"))
  /\ (forall items,
      result = PDict items ->
      dict_get "data" items = None
      \/ (exists data, dict_get "data" items = Some (PDict data)
                       /\ dict_get "valid" data = None) ->
      b = false).
Proof.
  intros Hattempt Hflag.
  split.
  - pose proof (valid_flag_reported result b s Hflag) as Hv.
    exists (PBool b).
    unfold decide, bind, py_getitem, py_ge_int, ret. cbn.
    rewrite Hattempt. unfold spec_decision.
    destruct b; cbn.
    + eexists. repeat split; try reflexivity; try exact Hv; discriminate.
    + destruct (init_max_attempts init_data <=? a); cbn;
        eexists; (repeat split; try reflexivity; try exact Hv;
                  intros H; discriminate H).
  - intros items -> H. cbn in Hflag.
    destruct H as [H | (data & H1 & H2)].
    + rewrite H in Hflag. now injection Hflag as <-.
    + rewrite H1, H2 in Hflag. now injection Hflag as <-.
Qed.

End Steps.

(** ** Runs *)

Section Runs.

Context {W : Type} {runtime : PyRuntime} {host : Host W}.

Lemma invokes_only_ret {A : Type} (a : A) :
  invokes_only (ret a : Step W A).
Proof. intros s. exists []. cbn. now rewrite app_nil_r. Qed.

Lemma invokes_only_raise {A : Type} (e : exn) :
  invokes_only (raise e : Step W A).
Proof. intros s. exists []. cbn. now rewrite app_nil_r. Qed.

Lemma invokes_only_bind {A B : Type} (m : Step W A) (k : A -> Step W B) :
  invokes_only m -> (forall a, invokes_only (k a)) ->
  invokes_only (bind m k).
Proof.
  intros Hm Hk s. unfold bind.
  destruct (Hm s) as (l1 & H1 & P1).
  destruct (m s) as [[a | e] s1]; cbn in *.
  - destruct (Hk a s1) as (l2 & H2 & P2).
    exists (l1 ++ l2)%list. rewrite H2, H1, P2, P1.
    now rewrite app_assoc.
  - now exists l1.
Qed.

Lemma invokes_only_run_nu_script (script_path : string)
  (input_data : pyval) :
  invokes_only (run_nu_script script_path input_data).
Proof.
  intros s.
  destruct (run_nu_script_effect script_path input_data s) as [w ->].
  now exists [(script_path, input_data)].
Qed.

Lemma invokes_only_py_get (v : pyval) (k : string) (default : pyval) :
  invokes_only (py_get v k default : Step W pyval).
Proof.
  destruct v; first [ apply invokes_only_ret | apply invokes_only_raise ].
Qed.

Lemma invokes_only_py_getitem (d : pydict) (k : string) :
  invokes_only (py_getitem d k : Step W pyval).
Proof.
  unfold py_getitem.
  destruct (dict_get k d);
    first [ apply invokes_only_ret | apply invokes_only_raise ].
Qed.

Lemma invokes_only_loads (text : string) :
  invokes_only (loads text : Step W pyval).
Proof.
  unfold loads.
  destruct (json_loads text);
    first [ apply invokes_only_ret | apply invokes_only_raise ].
Qed.

Lemma invokes_only_mkdtemp (prefix : string) :
  invokes_only (mkdtemp prefix).
Proof.
  intros s. unfold mkdtemp. exists [].
  destruct (os_mkdtemp prefix (world s)) as [[dir | ] w]; cbn;
    now rewrite app_nil_r.
Qed.

Create HintDb invokes.
#[local] Hint Resolve invokes_only_ret invokes_only_raise
  invokes_only_run_nu_script invokes_only_py_get
  invokes_only_py_getitem invokes_only_loads invokes_only_mkdtemp
  : invokes.

Ltac invokes :=
  cbv zeta;
  repeat first
    [ solve [ auto with invokes ]
    | apply invokes_only_bind; [ | intros ? ]
    | match goal with
      | |- invokes_only (if ?c then _ else _) => destruct c
      | |- invokes_only (match ?v with _ => _ end) => destruct v
      end ].

Lemma invokes_only_init (run_id : string) (workflow_input : WorkflowInput) :
  invokes_only (init run_id workflow_input).
Proof. unfold init. invokes. Qed.

Lemma invokes_only_generate (init_data : InitData)
  (workflow_input : WorkflowInput) :
  invokes_only (generate init_data workflow_input).
Proof. unfold generate. invokes. Qed.

Lemma invokes_only_execute (init_data : InitData) (gen_data : pydict)
  (workflow_input : WorkflowInput) :
  invokes_only (execute init_data gen_data workflow_input).
Proof. unfold execute. invokes. Qed.

Lemma invokes_only_validate (init_data : InitData) (exec_data : ExecData)
  (workflow_input : WorkflowInput) :
  invokes_only (validate init_data exec_data workflow_input).
Proof. unfold validate, valid_flag. invokes. Qed.

(** What [invokes_only] says of one call. *)
Lemma invokes_only_at {A : Type} (m : Step W A) (s s' : State W)
  (r : result A) :
  invokes_only m -> m s = (r, s') ->
  (exists l, invocations s' = (invocations s ++ l)%list)
  /\ pending s' = pending s.
Proof.
  intros Hm H. destruct (Hm s) as (l & H1 & H2).
  rewrite H in H1, H2. cbn in *. eauto.
Qed.

(** [decide] and [collect_feedback] leave the state as it is. *)
Lemma decide_state (init_data : InitData) (gen_data : pydict)
  (val_data : ValData) (s : State W) :
  snd (decide init_data gen_data val_data s) = s.
Proof.
  unfold decide, bind, py_getitem, py_ge_int, ret, raise.
  destruct (py_truthy (valid val_data));
    destruct (dict_get "attempt" gen_data) as [[ | b | z | t | l | d] | ];
    cbn; try reflexivity.
  - destruct (init_max_attempts init_data <=? _); reflexivity.
  - destruct (init_max_attempts init_data <=? z); reflexivity.
Qed.

Lemma collect_feedback_state (decide_data : DecideData)
  (init_data : InitData) (exec_data : ExecData) (val_data : ValData)
  (gen_data : pydict) (s : State W) :
  snd (collect_feedback decide_data init_data exec_data val_data gen_data s)
    = s.
Proof.
  unfold collect_feedback, bind, py_getitem, try_except, open_read, ret,
    raise.
  destruct (negb (String.eqb (decision decide_data) "retry"));
    [ reflexivity | ].
  destruct (dict_get "attempt" gen_data); [ | reflexivity ].
  destruct (os_read (exec_output_path exec_data) (world s)); reflexivity.
Qed.

(** A run that completes has run its seven steps in order, each on the
    outputs of the steps before it. *)
Lemma workflow_ok_inv (run_id : string) (workflow_input : WorkflowInput)
  (s s' : State W) (o : RunOutputs) :
  ContractLoopWorkflow run_id workflow_input s = (Ok o, s') ->
  exists s0 s1 s2 s3,
    init run_id workflow_input s = (Ok (out_init o), s0)
    /\ generate (out_init o) workflow_input s0 = (Ok (out_generate o), s1)
    /\ execute (out_init o) (out_generate o) workflow_input s1
         = (Ok (out_execute o), s2)
    /\ validate (out_init o) (out_execute o) workflow_input s2
         = (Ok (out_validate o), s3)
    /\ decide (out_init o) (out_generate o) (out_validate o) s3
         = (Ok (out_decide o), s3)
    /\ collect_feedback (out_decide o) (out_init o) (out_execute o)
         (out_validate o) (out_generate o) s3
         = (Ok (out_collect_feedback o), s3)
    /\ retry_or_complete (out_decide o) (out_collect_feedback o) (out_init o)
         (out_execute o) (out_generate o) workflow_input s3
         = (Ok (out_retry_or_complete o), s').
Proof.
  unfold ContractLoopWorkflow. intros H.
  apply bind_ok_inv in H as (init_data & s0 & Hinit & H).
  apply bind_ok_inv in H as (gen_data & s1 & Hgen & H).
  apply bind_ok_inv in H as (exec_data & s2 & Hexec & H).
  apply bind_ok_inv in H as (val_data & s3 & Hval & H).
  apply bind_ok_inv in H as (decide_data & s4 & Hdec & H).
  apply bind_ok_inv in H as (feedback_data & s5 & Hfb & H).
  apply bind_ok_inv in H as (completion & s6 & Hend & H).
  injection H as <- <-. cbn.
  assert (E4 : s4 = s3).
  { rewrite <- (decide_state init_data gen_data val_data s3).
    now rewrite Hdec. }
  subst s4.
  assert (E5 : s5 = s3).
  { rewrite <- (collect_feedback_state decide_data init_data exec_data
                  val_data gen_data s3).
    now rewrite Hfb. }
  subst s5.
  exists s0, s1, s2, s3. repeat split; assumption.
Qed.

(** The three ways [decide] returns. *)
Lemma decide_ok_inv (init_data : InitData) (gen_data : pydict)
  (val_data : ValData) (s s' : State W) (d : DecideData) :
  decide init_data gen_data val_data s = (Ok d, s') ->
  exists a,
    dict_get "attempt" gen_data = Some a
    /\ ((py_truthy (valid val_data) = true /\ d = DecideSuccess a)
        \/ (py_truthy (valid val_data) = false
            /\ py_ge_int a (init_max_attempts init_data) s = (Ok true, s)
            /\ d = DecideEscalate a (validation_result val_data))
        \/ (py_truthy (valid val_data) = false
            /\ py_ge_int a (init_max_attempts init_data) s = (Ok false, s)
            /\ d = DecideRetry a)).
Proof.
  unfold decide, bind, py_getitem, ret, raise.
  destruct (py_truthy (valid val_data));
    destruct (dict_get "attempt" gen_data) as [a | ]; cbn; intros H;
    try discriminate H; exists a; (split; [ reflexivity | ]).
  - injection H as <- <-. now left.
  - right.
    destruct a as [ | b | z | t | l | d0]; cbn in *; try discriminate H.
    + destruct (init_max_attempts init_data <=? _);
        injection H as <- <-; [ left | right ]; now repeat split.
    + destruct (init_max_attempts init_data <=? z);
        injection H as <- <-; [ left | right ]; now repeat split.
Qed.

(** A run does not look at the ["_retry_state"] of its input: [init] does
    not read it and [retry_or_complete] writes over it. *)
Lemma retry_state_is_not_read (run_id : string)
  (workflow_input : WorkflowInput) (carried : option RetryState) :
  ContractLoopWorkflow run_id
    {| contract := contract workflow_input;
       task := task workflow_input;
       input_json := input_json workflow_input;
       max_attempts := max_attempts workflow_input;
       _retry_state := carried |}
  = ContractLoopWorkflow run_id workflow_input.
Proof. reflexivity. Qed.

(** The input of the run that [retry_or_complete] spawns. *)
Lemma retry_or_complete_ok_inv (d : DecideData) (fb : option string)
  (init_data : InitData) (exec_data : ExecData) (gen_data : pydict)
  (workflow_input : WorkflowInput) (s s' : State W) (c : Completion) :
  retry_or_complete d fb init_data exec_data gen_data workflow_input s
    = (Ok c, s') ->
  match d with
  | DecideSuccess a =>
      s' = s
      /\ exists t, dict_get "tool_path" gen_data = Some t
                   /\ c = StatusSuccess (exec_output_path exec_data) t a
  | DecideEscalate a last_error =>
      s' = s /\ c = StatusEscalated escalation_message a (Some last_error)
  | DecideRetry _ =>
      exists a,
        dict_get "attempt" gen_data = Some a
        /\ c = StatusRetrying a
        /\ world s' = world s
        /\ invocations s' = invocations s
        /\ pending s'
             = (pending s
                  ++ [("ContractLoopWorkflow",
                       {| contract := contract workflow_input;
                          task := task workflow_input;
                          input_json := input_json workflow_input;
                          max_attempts := max_attempts workflow_input;
                          _retry_state :=
                            Some {| retry_attempt := a;
                                    retry_feedback := fb;
                                    retry_trace_id :=
                                      init_trace_id init_data;
                                    retry_work_dir :=
                                      init_work_dir init_data |} |})])%list
  end.
Proof.
  unfold retry_or_complete, bind, py_getitem, spawn_workflow, ret, raise.
  destruct d as [a | a last_error | a0].
  - destruct (dict_get "tool_path" gen_data) as [t | ]; intros H;
      [ | discriminate H ].
    injection H as <- <-. eauto.
  - intros H. injection H as <- <-. now split.
  - destruct (dict_get "attempt" gen_data) as [a | ]; intros H;
      [ | discriminate H ].
    injection H as <- <-. exists a. cbn. now repeat split.
Qed.

(** What a completed run returns and leaves: its status follows the decision,
    and it has spawned one run exactly when it returns "retrying". *)
Lemma workflow_completion (run_id : string) (workflow_input : WorkflowInput)
  (s s' : State W) (o : RunOutputs) :
  ContractLoopWorkflow run_id workflow_input s = (Ok o, s') ->
  let st := status (out_retry_or_complete o) in
  (st = "success" <-> py_truthy (valid (out_validate o)) = true)
  /\ (st = "escalated" <-> decision (out_decide o) = "escalate")
  /\ (st = "retrying" <-> decision (out_decide o) = "retry")
  /\ (st = "escalated" ->
      forall a, dict_get "attempt" (out_generate o) = Some (PInt a) ->
                init_max_attempts (out_init o) <= a)
  /\ (st = "retrying" ->
      py_truthy (valid (out_validate o)) = false
      /\ (forall a, dict_get "attempt" (out_generate o) = Some (PInt a) ->
                    a < init_max_attempts (out_init o))
      /\ exists spawned,
           pending s' = (pending s ++ [("ContractLoopWorkflow", spawned)])%list
           /\ _retry_state spawned <> None)
  /\ (st <> "retrying" -> pending s' = pending s).
Proof.
  intros H st.
  destruct (workflow_ok_inv _ _ _ _ _ H)
    as (s0 & s1 & s2 & s3 & Hinit & Hgen & Hexec & Hval & Hdec & _ & Hend).
  assert (Hp : pending s3 = pending s).
  { destruct (invokes_only_at _ _ _ _ (invokes_only_init _ _) Hinit)
      as [_ E0].
    destruct (invokes_only_at _ _ _ _ (invokes_only_generate _ _) Hgen)
      as [_ E1].
    destruct (invokes_only_at _ _ _ _ (invokes_only_execute _ _ _) Hexec)
      as [_ E2].
    destruct (invokes_only_at _ _ _ _ (invokes_only_validate _ _ _) Hval)
      as [_ E3].
    congruence. }
  apply decide_ok_inv in Hdec as (a & Ha & Hcases).
  apply retry_or_complete_ok_inv in Hend.
  subst st.
  destruct Hcases as [[Hv Hd] | [(Hv & Hge & Hd) | (Hv & Hge & Hd)]];
    rewrite Hd in *; cbn in Hend.
  - destruct Hend as (-> & t & _ & ->). cbn. rewrite Hv, Hp.
    repeat split; intros; try reflexivity; try discriminate; congruence.
  - destruct Hend as (-> & ->). cbn. rewrite Hv, Hp.
    repeat split; intros; try reflexivity; try discriminate;
      try congruence.
    assert (a = PInt a0) by congruence. subst a.
    cbn in Hge. injection Hge as Hge. now apply Z.leb_le.
  - destruct Hend as (a' & _ & -> & _ & _ & Hpending). cbn. rewrite Hv.
    repeat split; intros; try reflexivity; try discriminate;
      try congruence.
    + assert (a = PInt a0) by congruence. subst a.
      cbn in Hge. injection Hge as Hge. now apply Z.leb_gt.
    + eexists. rewrite Hpending, Hp. split; [ reflexivity | ].
      cbn. discriminate.
Qed.

Lemma dict_get_app_none (k : string) (d e : pydict) :
  dict_get k d = None -> dict_get k e = None ->
  dict_get k (d ++ e)%list = None.
Proof.
  intros Hd He. induction d as [ | [k' v'] d IH]; cbn in *.
  - exact He.
  - destruct (String.eqb k k'); [ discriminate Hd | now apply IH ].
Qed.

Lemma dict_get_rev_none (k : string) (d : pydict) :
  dict_get k d = None -> dict_get k (rev d) = None.
Proof.
  induction d as [ | [k' v'] d IH]; cbn; intros H.
  - reflexivity.
  - destruct (String.eqb k k') eqn:E; [ discriminate H | ].
    apply dict_get_app_none; [ now apply IH | ]. cbn. now rewrite E.
Qed.

(** Every run starts at attempt 0 with the initial feedback, whatever its
    input carries: its Generate is attempt 1, unless the generator's response
    has an ["attempt"] entry of its own. *)
Lemma run_attempt_is_one (run_id : string) (workflow_input : WorkflowInput)
  (s s' : State W) (o : RunOutputs) :
  ContractLoopWorkflow run_id workflow_input s = (Ok o, s') ->
  init_attempt (out_init o) = 0
  /\ init_feedback (out_init o) = "Initial generation"
  /\ exists items s0 s1,
       run_nu_script (path_join TOOLS_DIR "generate.nu")
         (generate_input (out_init o) workflow_input) s0
         = (Ok (PDict items), s1)
       /\ (dict_get "attempt" items = None ->
           dict_get "attempt" (out_generate o) = Some (PInt 1)).
Proof.
  intros H.
  destruct (workflow_ok_inv _ _ _ _ _ H)
    as (s0 & s1 & _ & _ & Hinit & Hgen & _).
  apply init_ok_inv in Hinit as (_ & Hattempt & Hfeedback & _).
  split; [ exact Hattempt | ]. split; [ exact Hfeedback | ].
  apply generate_ok_inv in Hgen as (items & Hrun & _ & Hdata).
  exists items, s0, s1. split; [ exact Hrun | ].
  intros Hnone. rewrite Hdata, dict_get_update, Hattempt.
  now rewrite (dict_get_rev_none _ _ Hnone).
Qed.


(** The Generate request of every run, whatever its input carries, has the
    initial feedback and is attempt 1 of the ceiling. *)
Lemma generate_request_is_initial (run_id : string)
  (workflow_input : WorkflowInput) (s s0 : State W) (init_data : InitData) :
  init run_id workflow_input s = (Ok init_data, s0) ->
  request_field "feedback"
    (path_join TOOLS_DIR "generate.nu",
     generate_input init_data workflow_input)
    = Some (PStr "Initial generation")
  /\ request_field "attempt"
       (path_join TOOLS_DIR "generate.nu",
        generate_input init_data workflow_input)
     = Some (PStr ("1/" ++ str_of_int
                             (match max_attempts workflow_input with
                              | Some n => n
                              | None => 5
                              end))).
Proof.
  intros H. apply init_ok_inv in H as (_ & Ha & Hf & Hm & _).
  unfold request_field, generate_input. cbn.
  now rewrite Ha, Hf, Hm.
Qed.

(** An [input_json] that is not JSON ends the run at the Execute step, after
    the generator and before the executor. *)
Lemma bad_input_json_fails_run (run_id text : string)
  (workflow_input : WorkflowInput) (s s0 s1 : State W)
  (init_data : InitData) (gen_data : pydict) :
  init run_id workflow_input s = (Ok init_data, s0) ->
  generate init_data workflow_input s0 = (Ok gen_data, s1) ->
  input_json workflow_input = Some text ->
  json_loads text = None ->
  ContractLoopWorkflow run_id workflow_input s = (Raise JSONDecodeError, s1).
Proof.
  intros Hinit Hgen Htext Hbad.
  unfold ContractLoopWorkflow.
  rewrite (bind_ok _ _ _ _ _ Hinit), (bind_ok _ _ _ _ _ Hgen).
  destruct (generate_has_attempt _ _ _ _ _ Hgen) as [_ [t Ht]].
  apply bind_raise.
  unfold execute, bind, py_getitem, loads, ret, raise.
  now rewrite Ht, Htext, Hbad.
Qed.

(** C4, as the code has it: the caller of [run_contract_loop] gets the result
    of the first workflow run.  When that run completes, its status is
    "success" exactly when validation passed; it is "retrying" exactly when
    the decision is to retry, that is when validation failed below the
    ceiling, and then a retry run has been spawned and is not waited for;
    otherwise nothing has been spawned. *)
Theorem caller_gets_first_run (contract_ task_ : string)
  (input_json_ : option string) (max_attempts_ : option Z)
  (s s' : State W) (o : RunOutputs) :
  run_contract_loop contract_ task_ input_json_ max_attempts_ s = (Ok o, s') ->
  let st := status (out_retry_or_complete o) in
  (st = "success" <-> py_truthy (valid (out_validate o)) = true)
  /\ (st = "escalated" <-> decision (out_decide o) = "escalate")
  /\ (st = "retrying" <-> decision (out_decide o) = "retry")
  /\ (st = "retrying" ->
      py_truthy (valid (out_validate o)) = false
      /\ (forall a, dict_get "attempt" (out_generate o) = Some (PInt a) ->
                    a < init_max_attempts (out_init o))
      /\ exists spawned,
           pending s' = (pending s ++ [("ContractLoopWorkflow", spawned)])%list
           /\ _retry_state spawned <> None)
  /\ (st <> "retrying" -> pending s' = pending s).
Proof.
  unfold run_contract_loop, run_contract_loop_async, start_run.
  destruct (os_run_id (world s)) as [run_id w]. cbn.
  intros H.
  destruct (workflow_completion _ _ _ _ _ H)
    as (H1 & H2 & H3 & _ & H5 & H6).
  cbn in H5, H6.
  split; [ exact H1 | ]. split; [ exact H2 | ]. split; [ exact H3 | ].
  split; [ exact H5 | exact H6 ].
Qed.

End Runs.

(** ** A validator that never accepts *)

Section Exhaustion.

Context {W : Type} {runtime : PyRuntime} {host : Host W}.

Lemma eqb_app_prefix (p a b : string) :
  String.eqb (p ++ a) (p ++ b) = String.eqb a b.
Proof.
  induction p as [ | c p IH]; cbn.
  - reflexivity.
  - now rewrite Ascii.eqb_refl.
Qed.

Lemma path_join_eqb (d a b : string) :
  String.eqb (path_join d a) (path_join d b) = String.eqb a b.
Proof.
  unfold path_join. rewrite eqb_app_prefix. cbn. reflexivity.
Qed.

Lemma generate_invocations_app (root : string)
  (l1 l2 : list (string * pyval)) :
  generate_invocations root (l1 ++ l2)%list
    = (generate_invocations root l1 ++ generate_invocations root l2)%list.
Proof. apply filter_app. Qed.

(** Of the three invocations of an attempt, the first is the Generate. *)
Lemma generate_invocations_attempt (g e v : pyval) :
  generate_invocations repo_root
    [(path_join TOOLS_DIR "generate.nu", g);
     (path_join TOOLS_DIR "run-tool.nu", e);
     (path_join TOOLS_DIR "validate.nu", v)]
    = [(path_join TOOLS_DIR "generate.nu", g)].
Proof.
  unfold generate_invocations. cbn. fold TOOLS_DIR.
  rewrite !path_join_eqb. reflexivity.
Qed.

Hypothesis rejecting : always_rejecting.

(** In such an environment a run with a ceiling of 2 or more, whatever its
    input carries, completes with the status "retrying": it invokes the
    generator once more and leaves a retry of the same ceiling behind. *)
Lemma rejected_run_retries (run_id : string) (workflow_input : WorkflowInput)
  (s : State W) (m : Z) (tool_input : pyval) :
  max_attempts workflow_input = Some m ->
  2 <= m ->
  json_loads (match input_json workflow_input with
              | Some text => text
              | None => "{}"
              end) = Some tool_input ->
  exists o s' carried,
    ContractLoopWorkflow run_id workflow_input s = (Ok o, s')
    /\ status (out_retry_or_complete o) = "retrying"
    /\ pending s'
         = (pending s
              ++ [("ContractLoopWorkflow",
                   {| contract := contract workflow_input;
                      task := task workflow_input;
                      input_json := input_json workflow_input;
                      max_attempts := max_attempts workflow_input;
                      _retry_state := Some carried |})])%list
    /\ exists request,
         generate_invocations repo_root (invocations s')
           = (generate_invocations repo_root (invocations s)
                ++ [(path_join TOOLS_DIR "generate.nu", request)])%list.
Proof.
  intros Hmax Hm Hinput.
  destruct rejecting as (Hdir & Hgen & Hexec & Hval).
  unfold ContractLoopWorkflow.
  (* init *)
  destruct (Hdir ("fire-flow-" ++ substring 0 8 run_id ++ "-") (world s))
    as (dir & w0 & Hd).
  pose (d0 := {| init_trace_id := run_id; init_work_dir := dir;
                 init_attempt := 0; init_max_attempts := m;
                 init_feedback := "Initial generation" |}).
  pose (s0 := {| world := w0; invocations := invocations s;
                 pending := pending s |}).
  assert (Hinit : init run_id workflow_input s = (Ok d0, s0)).
  { unfold init, bind, mkdtemp, ret. rewrite Hd, Hmax. reflexivity. }
  rewrite (bind_ok _ _ _ _ _ Hinit).
  (* generate *)
  destruct (Hgen (json_dumps (generate_input d0 workflow_input)) (world s0))
    as (pg & w1 & items & Hrun & Hrc & Hparse & (ok & Hok & Htrue) & Hown).
  apply run_nu_script_completed in Hrun.
  rewrite Hrc, Hparse in Hrun. cbn [Z.eqb negb] in Hrun.
  set (s1 := invoked s0 _ _ w1) in Hrun.
  pose (g := dict_update
               [("tool_path", PStr (path_join dir "tool.nu"));
                ("attempt", PInt 1)] items).
  assert (Hgenerate : generate d0 workflow_input s0 = (Ok g, s1)).
  { unfold generate. rewrite (bind_ok _ _ _ _ _ Hrun).
    unfold bind, py_get, ret. now rewrite Hok, Htrue. }
  rewrite (bind_ok _ _ _ _ _ Hgenerate).
  assert (Hattempt : dict_get "attempt" g = Some (PInt 1)).
  { unfold g. rewrite dict_get_update.
    now rewrite (dict_get_rev_none _ _ Hown). }
  assert (Htool : exists t, dict_get "tool_path" g = Some t).
  { unfold g. rewrite dict_get_update. cbn.
    destruct (dict_get "tool_path" (rev items)); eauto. }
  destruct Htool as [t Htool].
  (* execute *)
  pose (e_in := PDict [("tool_path", t);
                       ("tool_input", tool_input);
                       ("output_path", PStr (path_join dir "output.json"));
                       ("logs_path", PStr (path_join dir "logs.json"));
                       ("context", PDict [("trace_id", PStr run_id)])]).
  destruct (Hexec (json_dumps e_in) (world s1)) as (pe & w2 & Hrun2).
  apply run_nu_script_completed in Hrun2.
  set (s2 := invoked s1 _ _ w2) in Hrun2.
  match type of Hrun2 with
  | _ = (Ok ?r, _) => set (er := r) in Hrun2
  end.
  pose (x := {| exec_output_path := path_join dir "output.json";
                exec_logs_path := path_join dir "logs.json";
                execution_result := er |}).
  assert (Hexecute : execute d0 g workflow_input s1 = (Ok x, s2)).
  { unfold execute.
    rewrite (bind_ok (py_getitem g "tool_path") _ s1 s1 t)
      by (unfold py_getitem; now rewrite Htool).
    rewrite (bind_ok (loads _) _ s1 s1 tool_input)
      by (unfold loads; now rewrite Hinput).
    now rewrite (bind_ok _ _ _ _ _ Hrun2). }
  rewrite (bind_ok _ _ _ _ _ Hexecute).
  (* validate *)
  pose (v_in := PDict [("contract_path", PStr (contract workflow_input));
                       ("output_path", PStr (path_join dir "output.json"));
                       ("server", PStr "local");
                       ("context", PDict [("trace_id", PStr run_id)])]).
  destruct (Hval (json_dumps v_in) (world s2))
    as (pv & w3 & response & Hrun3 & Hrc3 & Hparse3 & Hflag).
  apply run_nu_script_completed in Hrun3.
  rewrite Hrc3, Hparse3 in Hrun3. cbn [Z.eqb negb] in Hrun3.
  set (s3 := invoked s2 _ _ w3) in Hrun3.
  pose (val := {| valid := PBool false; validation_result := response |}).
  assert (Hvalidate : validate d0 x workflow_input s2 = (Ok val, s3)).
  { unfold validate. rewrite (bind_ok _ _ _ _ _ Hrun3).
    now rewrite (bind_ok _ _ _ _ _ (valid_flag_reported _ _ s3 Hflag)). }
  rewrite (bind_ok _ _ _ _ _ Hvalidate).
  (* decide *)
  assert (Hdecide : decide d0 g val s3 = (Ok (DecideRetry (PInt 1)), s3)).
  { unfold decide, bind, py_getitem, py_ge_int, ret. cbn.
    rewrite Hattempt.
    replace (m <=? 1) with false by (symmetry; apply Z.leb_gt; lia).
    reflexivity. }
  rewrite (bind_ok _ _ _ _ _ Hdecide).
  (* collect_feedback *)
  assert (Hfeedback : exists fb,
             collect_feedback (DecideRetry (PInt 1)) d0 x val g s3
               = (Ok (Some fb), s3)).
  { unfold collect_feedback, bind, py_getitem, try_except, open_read, ret.
    cbn. rewrite Hattempt.
    destruct (os_read (path_join dir "output.json") (world s3));
      eexists; reflexivity. }
  destruct Hfeedback as [fb Hfeedback].
  rewrite (bind_ok _ _ _ _ _ Hfeedback).
  (* retry_or_complete *)
  assert (Hend : exists s4,
             retry_or_complete (DecideRetry (PInt 1)) (Some fb) d0 x g
               workflow_input s3 = (Ok (StatusRetrying (PInt 1)), s4)
             /\ s4 = snd (retry_or_complete (DecideRetry (PInt 1)) (Some fb)
                            d0 x g workflow_input s3)).
  { unfold retry_or_complete, bind, py_getitem, spawn_workflow, ret.
    rewrite Hattempt. eexists. split; reflexivity. }
  destruct Hend as (s4 & Hend & Hs4).
  rewrite (bind_ok _ _ _ _ _ Hend). unfold ret.
  unfold retry_or_complete, bind, py_getitem, spawn_workflow, ret in Hs4.
  rewrite Hattempt in Hs4. cbn [snd] in Hs4. subst s4.
  do 3 eexists. split; [ reflexivity | ].
  split; [ reflexivity | ]. split; [ reflexivity | ].
  eexists. unfold s3, s2, s1, s0, invoked. cbn [invocations].
  rewrite <- !app_assoc, generate_invocations_app. cbn [app].
  now rewrite generate_invocations_attempt.
Qed.

(** So the worker never sees the loop end: of the retries it takes, however
    many, each invokes the generator once more and none escalates. *)
Lemma rejected_retries_go_on (n : nat) :
  forall (s : State W) (workflow_input : WorkflowInput) (m : Z)
         (tool_input : pyval),
    pending s = [("ContractLoopWorkflow", workflow_input)] ->
    max_attempts workflow_input = Some m ->
    2 <= m ->
    json_loads (match input_json workflow_input with
                | Some text => text
                | None => "{}"
                end) = Some tool_input ->
    Forall (fun r => run_status r = "retrying") (fst (worker n s))
    /\ List.length (fst (worker n s)) = n
    /\ List.length (generate_invocations repo_root
                      (invocations (snd (worker n s))))
       = (List.length (generate_invocations repo_root (invocations s))
            + n)%nat
    /\ List.length (pending (snd (worker n s))) = 1%nat.
Proof.
  induction n as [ | n IH]; intros s workflow_input m tool_input Hp Hmax Hm
    Hinput.
  - cbn. rewrite Hp, Nat.add_0_r. now repeat split.
  - cbn [worker]. rewrite Hp.
    unfold start_run. cbn [world invocations pending].
    destruct (os_run_id (world s)) as [run_id w].
    cbn [String.eqb Ascii.eqb Bool.eqb].
    destruct (rejected_run_retries run_id workflow_input
                {| world := w; invocations := invocations s; pending := [] |}
                m tool_input Hmax Hm Hinput)
      as (o & s1 & carried & Hrun & Hstatus & Hpending & request & Hlog).
    rewrite Hrun.
    specialize (IH s1 _ m tool_input Hpending Hmax Hm Hinput).
    destruct (worker n s1) as [rs s2]. cbn [fst snd] in *.
    destruct IH as (Hall & Hlen & Hcount & Hleft).
    split; [ constructor; [ exact Hstatus | exact Hall ] | ].
    split; [ cbn [List.length]; now rewrite Hlen | ].
    split; [ | exact Hleft ].
    rewrite Hcount, Hlog, length_app. cbn [invocations List.length]. lia.
Qed.

End Exhaustion.

(** ** The loop on the example hosts *)

(** C4, as the specification has it, fails: with the default ceiling of 5 and
    a validator that rejects the output, the caller's final result has the
    status "retrying", which is neither "success" nor "escalated". *)
Lemma caller_observes_retrying :
  exists o,
    fst (Demo.call Demo.stubborn None) = Ok o
    /\ status (out_retry_or_complete o) = "retrying"
    /\ ~ (status (out_retry_or_complete o) = "success"
          \/ status (out_retry_or_complete o) = "escalated").
Proof.
  destruct (Demo.call Demo.stubborn None) as [[o | e] s] eqn:H;
    vm_compute in H; [ | discriminate H ].
  exists o. injection H as <- _. cbn.
  split; [ reflexivity | ]. split; [ reflexivity | ].
  intros [H | H]; discriminate H.
Qed.

Lemma caller_gets_first_run_witness :
  exists o s',
    Demo.call Demo.stubborn (Some 2) = (Ok o, s')
    /\ (status (out_retry_or_complete o) = "retrying"
        <-> decision (out_decide o) = "retry")
    /\ exists spawned,
         pending s' = [("ContractLoopWorkflow", spawned)]
         /\ _retry_state spawned <> None.
Proof.
  destruct (Demo.call Demo.stubborn (Some 2)) as [[o | e] s'] eqn:H;
    [ | vm_compute in H; discriminate H ].
  exists o, s'. split; [ reflexivity | ].
  destruct (@caller_gets_first_run _ RefRuntime.runtime
              (Demo.host Demo.stubborn) "contracts/echo.yaml"
              "Generate an echo tool" None (Some 2) Demo.empty s' o H)
    as (_ & _ & H3 & H4 & _).
  split; [ exact H3 | ].
  assert (Hst : status (out_retry_or_complete o) = "retrying").
  { vm_compute in H. now injection H as <- _. }
  destruct (H4 Hst) as (_ & _ & spawned & Hp & Hr).
  exists spawned. now split.
Defined.

(** The two terminal results, where the code reaches them: success at the
    first attempt when the validator accepts, and escalation at the first
    attempt when the ceiling is 1. *)
Lemma accepted_first_attempt_succeeds :
  run_status (fst (Demo.call Demo.accepting None)) = "success"
  /\ match fst (Demo.call Demo.accepting None) with
     | Ok o =>
         out_retry_or_complete o
           = StatusSuccess "/tmp/fire-flow-0000-run-0/output.json"
               (PStr "/tmp/fire-flow-0000-run-0/tool.nu") (PInt 1)
     | Raise _ => False
     end
  /\ pending (snd (Demo.call Demo.accepting None)) = [].
Proof. vm_compute. repeat split. Qed.

Lemma ceiling_of_one_escalates :
  run_status (fst (Demo.call Demo.stubborn (Some 1))) = "escalated"
  /\ match fst (Demo.call Demo.stubborn (Some 1)) with
     | Ok o =>
         out_retry_or_complete o
           = StatusEscalated escalation_message (PInt 1)
               (Some (validation_result (out_validate o)))
     | Raise _ => False
     end
  /\ pending (snd (Demo.call Demo.stubborn (Some 1))) = [].
Proof. vm_compute. repeat split. Qed.

(** The example host with the stubborn validator is such an environment. *)
Lemma stubborn_always_rejecting :
  always_rejecting (runtime := RefRuntime.runtime)
    (host := Demo.host Demo.stubborn).
Proof.
  repeat split.
  - intros prefix w. do 2 eexists. reflexivity.
  - intros input w. do 3 eexists.
    split; [ reflexivity | ]. split; [ reflexivity | ].
    split; [ vm_compute; reflexivity | ].
    split; [ | reflexivity ].
    eexists. split; reflexivity.
  - intros input w. do 2 eexists. reflexivity.
  - intros input w. do 3 eexists.
    split; [ reflexivity | ]. split; [ reflexivity | ].
    split; [ vm_compute; reflexivity | reflexivity ].
Qed.

(** C1 at a failing input: with [max_attempts = 2] and a validator that
    rejects every attempt, the caller's run ends "retrying" and so does every
    retry after it, however many the worker takes: after [n] retries the
    generator has been invoked [n + 1] times, more than twice from the second
    retry on, no run has escalated, and one more retry is waiting. *)
Theorem stubborn_validator_never_escalates (n : nat) :
  let (r0, s0) := Demo.call Demo.stubborn (Some 2) in
  let (rs, s1) := Demo.retries Demo.stubborn n s0 in
  Forall (fun r => run_status r = "retrying") (r0 :: rs)
  /\ List.length rs = n
  /\ List.length (generate_invocations "/repo" (invocations s1)) = S n
  /\ List.length (pending s1) = 1%nat.
Proof.
  destruct (Demo.call Demo.stubborn (Some 2)) as [r0 s0] eqn:H0.
  vm_compute in H0. injection H0 as <- <-.
  match goal with
  | |- context [Demo.retries _ _ ?s] =>
      pose proof (@rejected_retries_go_on _ RefRuntime.runtime
                    (Demo.host Demo.stubborn) stubborn_always_rejecting
                    n s _ 2 (PDict []) eq_refl eq_refl ltac:(lia) eq_refl)
        as (Hall & Hlen & Hcount & Hleft)
  end.
  unfold Demo.retries.
  match goal with
  | |- context [worker n ?s] => destruct (worker n s) as [rs s1]
  end.
  cbn [fst snd] in *.
  split; [ constructor; [ reflexivity | exact Hall ] | ].
  split; [ exact Hlen | ].
  split; [ | exact Hleft ].
  exact Hcount.
Qed.

(** The first five runs of that loop: each Generate request is attempt 1 of
    2 again. *)
Lemma five_runs_of_a_stubborn_validator :
  let (r0, s0) := Demo.call Demo.stubborn (Some 2) in
  let (rs, s1) := Demo.retries Demo.stubborn 4 s0 in
  map run_status (r0 :: rs)
    = ["retrying"; "retrying"; "retrying"; "retrying"; "retrying"]
  /\ map (request_field "attempt")
       (generate_invocations "/repo" (invocations s1))
     = [Some (PStr "1/2"); Some (PStr "1/2"); Some (PStr "1/2");
        Some (PStr "1/2"); Some (PStr "1/2")]
  /\ List.length (pending s1) = 1%nat.
Proof. vm_compute. repeat split. Qed.

(** C2 at a failing input: the retry that the first run spawns is given the
    trace id, the work directory, the attempt and the feedback of that run,
    and runs with none of them: it has a trace id and a work directory of
    its own, starts again from attempt 0 (its Generate is attempt 1, not 2)
    and from the initial feedback. *)
Theorem spawned_retry_starts_afresh :
  let (r0, s0) := Demo.call Demo.stubborn (Some 2) in
  let (rs, s1) := Demo.retries Demo.stubborn 1 s0 in
  match r0, pending s0, rs with
  | Ok o0, [(_, spawned)], [Ok o1] =>
      option_map retry_trace_id (_retry_state spawned) = Some "0000-run-0"
      /\ init_trace_id (out_init o1) = "0000-run-1"
      /\ option_map retry_work_dir (_retry_state spawned)
           = Some "/tmp/fire-flow-0000-run-0"
      /\ init_work_dir (out_init o1) = "/tmp/fire-flow-0000-run-1"
      /\ option_map retry_attempt (_retry_state spawned) = Some (PInt 1)
      /\ init_attempt (out_init o1) = 0
      /\ dict_get "attempt" (out_generate o1) = Some (PInt 1)
      /\ option_map retry_feedback (_retry_state spawned)
           = Some (out_collect_feedback o0)
      /\ out_collect_feedback o0 <> Some "Initial generation"
      /\ init_feedback (out_init o1) = "Initial generation"
  | _, _, _ => False
  end.
Proof. vm_compute. repeat split. intros H. discriminate H. Qed.

(** C3 at a failing input: the feedback made from the first attempt starts
    with its counter line and is carried to the spawned retry, but the
    Generate request of that retry has the initial feedback again, as the
    first one had. *)
Theorem retry_request_has_initial_feedback :
  let (r0, s0) := Demo.call Demo.stubborn (Some 2) in
  let (rs, s1) := Demo.retries Demo.stubborn 1 s0 in
  match r0 with
  | Ok o0 =>
      option_map (substring 0 19) (out_collect_feedback o0)
        = Some "ATTEMPT 1/2 FAILED."
      /\ map (fun run => option_map retry_feedback (_retry_state (snd run)))
           (pending s0)
         = [Some (out_collect_feedback o0)]
  | Raise _ => False
  end
  /\ map (request_field "feedback")
       (generate_invocations "/repo" (invocations s1))
     = [Some (PStr "Initial generation"); Some (PStr "Initial generation")].
Proof. vm_compute. repeat split. Qed.

(** The feedback of the first attempt, where it holds: what
    [collect_feedback] returns is a function of the outputs of the attempt
    it ends, and of nothing else. *)
Lemma collect_feedback_of_this_attempt :
  match fst (Demo.call Demo.stubborn (Some 2)) with
  | Ok o =>
      out_collect_feedback o
        = Some (String.concat nl
                  ["ATTEMPT 1/2 FAILED.";
                   EmptyString;
                   "CONTRACT ERRORS:";
                   RefRuntime.dumps_indent 2
                     (validation_result (out_validate o));
                   "OUTPUT PRODUCED:" ++ nl ++ "{}";
                   EmptyString;
                   "FIX THE NUSHELL SCRIPT TO SATISFY THE CONTRACT."])
  | Raise _ => False
  end.
Proof. vm_compute. reflexivity. Qed.

(** ** The steps on the example hosts *)

Lemma generate_failure_is_fatal_witness :
  exists e s1,
    ContractLoopWorkflow (runtime := RefRuntime.runtime)
      (host := Demo.host Demo.broken_generator)
      "0000-run-0" (Demo.echo_input (Some 2) None) Demo.empty
      = (Raise e, s1)
    /\ map fst (invocations s1) = [Demo.generate_nu]
    /\ pending s1 = [].
Proof.
  edestruct (@generate_failure_is_fatal Demo.World RefRuntime.runtime
               (Demo.host Demo.broken_generator) "0000-run-0"
               (Demo.echo_input (Some 2) None) Demo.empty)
    as ((e & He) & Hlog & Hp).
  - vm_compute. reflexivity.
  - vm_compute. reflexivity.
  - reflexivity.
  - exists e. eexists. split; [ exact He | ]. split; reflexivity.
Defined.

Lemma collect_feedback_without_output_witness :
  fst (collect_feedback (runtime := RefRuntime.runtime)
         (host := Demo.host Demo.silent)
         (DecideRetry (PInt 1)) Demo.init_data Demo.exec_data Demo.val_data
         Demo.gen_data Demo.empty)
    = Ok (Some (String.concat nl
                  ["ATTEMPT 1/2 FAILED.";
                   EmptyString;
                   "CONTRACT ERRORS:";
                   RefRuntime.dumps_indent 2
                     (PDict [("data", PDict [("valid", PBool false)])]);
                   EmptyString;
                   "FIX THE NUSHELL SCRIPT TO SATISFY THE CONTRACT."])).
Proof.
  exact (f_equal fst
           (proj1 (@collect_feedback_without_output Demo.World
                     RefRuntime.runtime (Demo.host Demo.silent)
                     (PInt 1) (PInt 1) Demo.init_data Demo.exec_data
                     Demo.val_data Demo.gen_data
                     (Demo.echo_input (Some 2) None) Demo.empty
                     eq_refl eq_refl))).
Defined.

Lemma execute_input_json_witness :
  execute (runtime := RefRuntime.runtime) (host := Demo.host Demo.silent)
    Demo.init_data Demo.gen_data
    {| contract := "contracts/echo.yaml";
       task := "Generate an echo tool";
       input_json := Some "{not json";
       max_attempts := Some 2;
       _retry_state := None |} Demo.empty
    = (Raise JSONDecodeError, Demo.empty)
  /\ map (request_field "tool_input")
       (invocations
          (snd (execute (runtime := RefRuntime.runtime)
                  (host := Demo.host Demo.silent)
                  Demo.init_data Demo.gen_data
                  {| contract := "contracts/echo.yaml";
                     task := "Generate an echo tool";
                     input_json := None;
                     max_attempts := Some 2;
                     _retry_state := None |} Demo.empty)))
     = [Some (PDict [])].
Proof.
  split.
  - apply (proj1 (@execute_input_json Demo.World RefRuntime.runtime
                    (Demo.host Demo.silent) Demo.init_data Demo.gen_data
                    {| contract := "contracts/echo.yaml";
                       task := "Generate an echo tool";
                       input_json := Some "{not json";
                       max_attempts := Some 2;
                       _retry_state := None |} Demo.empty
                    (PStr "/tmp/fire-flow-0000-run-0/tool.nu") eq_refl)
             "{not json" eq_refl eq_refl).
  - rewrite (proj1 (proj2 (@execute_input_json Demo.World RefRuntime.runtime
                             (Demo.host Demo.silent) Demo.init_data
                             Demo.gen_data
                             {| contract := "contracts/echo.yaml";
                                task := "Generate an echo tool";
                                input_json := None;
                                max_attempts := Some 2;
                                _retry_state := None |} Demo.empty
                             (PStr "/tmp/fire-flow-0000-run-0/tool.nu")
                             eq_refl)) eq_refl).
    reflexivity.
Defined.

Lemma decide_follows_policy_witness :
  (exists d,
      decide (W := Demo.World) Demo.init_data Demo.gen_data
        {| valid := PBool false;
           validation_result := PDict [("status", PStr "error")] |}
        Demo.empty = (Ok d, Demo.empty)
      /\ decision d = "retry")
  /\ (exists d,
        decide (W := Demo.World) Demo.init_data [("attempt", PInt 2)]
          {| valid := PBool false;
             validation_result :=
               PDict [("data", PDict [("valid", PBool false)])] |}
          Demo.empty = (Ok d, Demo.empty)
        /\ decision d = "escalate")
  /\ (exists d,
        decide (W := Demo.World) Demo.init_data [("attempt", PInt 2)]
          {| valid := PBool true;
             validation_result :=
               PDict [("data", PDict [("valid", PBool true)])] |}
          Demo.empty = (Ok d, Demo.empty)
        /\ decision d = "success").
Proof.
  split; [ | split ].
  - destruct (@decide_follows_policy Demo.World Demo.init_data Demo.gen_data
                (PDict [("status", PStr "error")]) false 1 Demo.empty
                eq_refl eq_refl)
      as [(v & d & Hv & Hd & Hdec & _) _].
    injection Hv as <-. exists d. split; [ exact Hd | exact Hdec ].
  - destruct (@decide_follows_policy Demo.World Demo.init_data
                [("attempt", PInt 2)]
                (PDict [("data", PDict [("valid", PBool false)])])
                false 2 Demo.empty eq_refl eq_refl)
      as [(v & d & Hv & Hd & Hdec & _) _].
    injection Hv as <-. exists d. split; [ exact Hd | exact Hdec ].
  - destruct (@decide_follows_policy Demo.World Demo.init_data
                [("attempt", PInt 2)]
                (PDict [("data", PDict [("valid", PBool true)])])
                true 2 Demo.empty eq_refl eq_refl)
      as [(v & d & Hv & Hd & Hdec & _) _].
    injection Hv as <-. exists d. split; [ exact Hd | exact Hdec ].
Defined.

(** * More of the tool invoker *)

Section InvokerResults.

Context {W : Type} {runtime : PyRuntime} {host : Host W}.

(** X1: when the child process exits with a nonzero status, the invoker
    returns the failure dict and does not raise: [success] is false, [error]
    is the standard error text, or "Exit code: N" when that text is empty,
    and the standard output is kept as text, not parsed, even when it is
    JSON. *)
Theorem run_nu_script_nonzero_exit (script_path : string)
  (input_data : pyval) (s : State W) (p : CompletedProcess) (w : W) :
  os_run ["nu"; script_path] (json_dumps input_data) 300 (world s)
    = (Completed p, w) ->
  returncode p <> 0 ->
  exists d,
    fst (run_nu_script script_path input_data s) = Ok (PDict d)
    /\ dict_get "success" d = Some (PBool false)
    /\ dict_get "stdout" d = Some (PStr (stdout p))
    /\ (stderr p <> EmptyString ->
        dict_get "error" d = Some (PStr (stderr p)))
    /\ (stderr p = EmptyString ->
        dict_get "error" d
          = Some (PStr ("Exit code: " ++ str_of_int (returncode p)))).
Proof.
  intros Hrun Hrc.
  rewrite (run_nu_script_completed _ _ _ _ _ Hrun).
  apply Z.eqb_neq in Hrc. rewrite Hrc. cbn [negb fst].
  eexists. split; [ reflexivity | ]. cbn.
  repeat split.
  - intros Herr. apply String.eqb_neq in Herr. now rewrite Herr.
  - intros Herr. now rewrite Herr.
Qed.

(** The only exception of the invoker. *)
Lemma run_nu_script_raises_timeout_only (script_path : string)
  (input_data : pyval) (s s' : State W) (e : exn) :
  run_nu_script script_path input_data s = (Raise e, s') ->
  e = SubprocessTimeoutExpired
  /\ exists w, os_run ["nu"; script_path] (json_dumps input_data) 300
                 (world s) = (Overran, w).
Proof.
  destruct (os_run ["nu"; script_path] (json_dumps input_data) 300 (world s))
    as [[p | ] w] eqn:Hrun; intros H.
  - rewrite (run_nu_script_completed _ _ _ _ _ Hrun) in H. discriminate H.
  - rewrite (run_nu_script_overran _ _ _ _ Hrun) in H.
    injection H as <- _. eauto.
Qed.


End InvokerResults.

(** * Traces of a run *)

Section RunTraces.

Context {W : Type} {runtime : PyRuntime} {host : Host W}.

(** [init] fails only when the work directory cannot be made, and touches
    neither the log nor the spawned runs. *)
Lemma init_effect (run_id : string) (workflow_input : WorkflowInput)
  (s s' : State W) (r : result InitData) :
  init run_id workflow_input s = (r, s') ->
  invocations s' = invocations s
  /\ pending s' = pending s
  /\ match r with
     | Ok _ => True
     | Raise e =>
         e = OSError
         /\ exists w,
              os_mkdtemp ("fire-flow-" ++ substring 0 8 run_id ++ "-")
                (world s) = (None, w)
     end.
Proof.
  unfold init, bind, mkdtemp, ret.
  destruct (os_mkdtemp _ (world s)) as [[dir | ] w]; intros H;
    injection H as <- <-; cbn; eauto.
Qed.

(** [generate] invokes the generator, once, whatever comes of it. *)
Lemma generate_effect (init_data : InitData) (workflow_input : WorkflowInput)
  (s : State W) :
  exists w,
    snd (generate init_data workflow_input s)
      = invoked s (path_join TOOLS_DIR "generate.nu")
          (generate_input init_data workflow_input) w.
Proof.
  unfold generate. cbv zeta. unfold bind.
  destruct (run_nu_script_effect (path_join TOOLS_DIR "generate.nu")
              (generate_input init_data workflow_input) s) as [w Hw].
  exists w.
  destruct (run_nu_script _ _ s) as [[result | e] s1]; cbn in Hw; subst s1;
    [ | reflexivity ].
  destruct result as [ | b | z | t | l | items]; try reflexivity.
  cbn. destruct (dict_get "success" items) as [v | ]; cbn.
  - destruct (py_truthy v); reflexivity.
  - reflexivity.
Qed.

(** [execute] either raises before it invokes anything, on a missing
    [tool_path] or an [input_json] that is not JSON, or invokes the executor,
    once. *)
Lemma execute_effect (init_data : InitData) (gen_data : pydict)
  (workflow_input : WorkflowInput) (s s' : State W) (r : result ExecData) :
  execute init_data gen_data workflow_input s = (r, s') ->
  (s' = s /\ exists e, r = Raise e)
  \/ exists t ti w,
       dict_get "tool_path" gen_data = Some t
       /\ json_loads (match input_json workflow_input with
                      | Some text => text
                      | None => "{}"
                      end) = Some ti
       /\ s' = invoked s (path_join TOOLS_DIR "run-tool.nu")
                 (execute_input init_data t ti) w
       /\ match r with
          | Ok x =>
              exec_output_path x
                = path_join (init_work_dir init_data) "output.json"
              /\ exec_logs_path x
                   = path_join (init_work_dir init_data) "logs.json"
          | Raise e => e = SubprocessTimeoutExpired
          end.
Proof.
  unfold execute. cbv zeta. unfold bind at 1. unfold py_getitem.
  destruct (dict_get "tool_path" gen_data) as [t | ];
    [ | intros H; injection H as <- <-; left; eauto ].
  cbn [ret]. unfold bind at 1. unfold loads.
  destruct (json_loads _) as [ti | ] eqn:Hin;
    [ | intros H; injection H as <- <-; left; eauto ].
  cbn [ret]. fold (execute_input init_data t ti). unfold bind.
  destruct (run_nu_script_effect (path_join TOOLS_DIR "run-tool.nu")
              (execute_input init_data t ti) s) as [w Hw].
  destruct (run_nu_script _ _ s) as [[result | e] s1] eqn:Hrun;
    cbn in Hw; subst s1; intros H; injection H as <- <-; right;
    exists t, ti, w; repeat split.
  now destruct (run_nu_script_raises_timeout_only _ _ _ _ _ Hrun).
Qed.

(** [validate] invokes the validator, once, whatever comes of it. *)
Lemma validate_effect (init_data : InitData) (exec_data : ExecData)
  (workflow_input : WorkflowInput) (s : State W) :
  exists w,
    snd (validate init_data exec_data workflow_input s)
      = invoked s (path_join TOOLS_DIR "validate.nu")
          (validate_input init_data exec_data workflow_input) w.
Proof.
  unfold validate. fold (validate_input init_data exec_data workflow_input).
  unfold bind.
  destruct (run_nu_script_effect (path_join TOOLS_DIR "validate.nu")
              (validate_input init_data exec_data workflow_input) s)
    as [w Hw].
  exists w.
  destruct (run_nu_script _ _ s) as [[result | e] s1]; cbn in Hw; subst s1;
    [ | reflexivity ].
  unfold valid_flag, bind, py_get, ret, raise.
  destruct result as [ | b | z | t | l | items]; try reflexivity.
  destruct (dict_get "data" items) as [[ | b | z | t | l | data] | ];
    reflexivity.
Qed.

(** [retry_or_complete] that raises has done nothing. *)
Lemma retry_or_complete_raise (d : DecideData) (fb : option string)
  (init_data : InitData) (exec_data : ExecData) (gen_data : pydict)
  (workflow_input : WorkflowInput) (s s' : State W) (e : exn) :
  retry_or_complete d fb init_data exec_data gen_data workflow_input s
    = (Raise e, s') ->
  s' = s.
Proof.
  unfold retry_or_complete, bind, py_getitem, spawn_workflow, ret, raise.
  destruct d as [a | a last_error | a0].
  - destruct (dict_get "tool_path" gen_data); intros H;
      [ discriminate H | now injection H as _ <- ].
  - intros H. discriminate H.
  - destruct (dict_get "attempt" gen_data); intros H;
      [ discriminate H | now injection H as _ <- ].
Qed.

(** What any run, completed or failed, leaves: an initial part of the three
    invocations of an attempt, in their order, and no spawned run when it
    failed. *)
Lemma workflow_effect (run_id : string) (workflow_input : WorkflowInput)
  (s s' : State W) (r : result RunOutputs) :
  ContractLoopWorkflow run_id workflow_input s = (r, s') ->
  exists l rest,
    invocations s' = (invocations s ++ l)%list
    /\ (map fst l ++ rest)%list = attempt_scripts
    /\ match r with
       | Ok _ => rest = []
       | Raise _ => pending s' = pending s
       end.
Proof.
  unfold ContractLoopWorkflow. intros H.
  (* init *)
  destruct (init run_id workflow_input s) as [[d | e] s0] eqn:Hinit;
    [ rewrite (bind_ok _ _ _ _ _ Hinit) in H
    | rewrite (bind_raise _ _ _ _ _ Hinit) in H ];
    apply init_effect in Hinit as (Hl0 & Hp0 & _).
  2:{ injection H as <- <-. exists [], attempt_scripts.
      rewrite app_nil_r. now repeat split. }
  (* generate *)
  destruct (generate_effect d workflow_input s0) as [w1 Hs1].
  destruct (generate d workflow_input s0) as [[g | e] s1] eqn:Hgen;
    [ rewrite (bind_ok _ _ _ _ _ Hgen) in H
    | rewrite (bind_raise _ _ _ _ _ Hgen) in H ];
    cbn [snd] in Hs1; subst s1.
  2:{ injection H as <- <-. do 2 eexists. cbn [invocations invoked pending].
      rewrite Hl0, Hp0. split; [ reflexivity | ]. now split. }
  (* execute *)
  match type of H with
  | bind _ _ ?s1 = _ =>
      destruct (execute d g workflow_input s1) as [[x | e] s2] eqn:Hexec
  end;
    [ rewrite (bind_ok _ _ _ _ _ Hexec) in H
    | rewrite (bind_raise _ _ _ _ _ Hexec) in H ];
    apply execute_effect in Hexec
      as [(-> & e' & He') | (t & ti & w2 & _ & _ & -> & _)];
    try discriminate He'.
  2:{ injection H as <- <-. do 2 eexists. cbn [invocations invoked pending].
      rewrite Hl0, Hp0. split; [ reflexivity | ]. now split. }
  2:{ injection H as <- <-. do 2 eexists. cbn [invocations invoked pending].
      rewrite Hl0, Hp0, <- app_assoc. split; [ reflexivity | ]. now split. }
  (* validate *)
  match type of H with
  | bind _ _ ?s2 = _ =>
      destruct (validate_effect d x workflow_input s2) as [w3 Hs3];
      destruct (validate d x workflow_input s2) as [[v | e] s3] eqn:Hval
  end;
    [ rewrite (bind_ok _ _ _ _ _ Hval) in H
    | rewrite (bind_raise _ _ _ _ _ Hval) in H ];
    cbn [snd] in Hs3; subst s3.
  2:{ injection H as <- <-. do 2 eexists. cbn [invocations invoked pending].
      rewrite Hl0, Hp0, <- !app_assoc. split; [ reflexivity | ]. now split. }
  (* decide, collect_feedback, retry_or_complete *)
  match type of H with
  | bind _ _ ?s3 = _ =>
      pose proof (decide_state d g v s3) as Hs4;
      destruct (decide d g v s3) as [[dd | e] s4] eqn:Hdec
  end;
    [ rewrite (bind_ok _ _ _ _ _ Hdec) in H
    | rewrite (bind_raise _ _ _ _ _ Hdec) in H ];
    cbn [snd] in Hs4; subst s4.
  2:{ injection H as <- <-. do 2 eexists. cbn [invocations invoked pending].
      rewrite Hl0, Hp0, <- !app_assoc. split; [ reflexivity | ]. now split. }
  match type of H with
  | bind _ _ ?s3 = _ =>
      pose proof (collect_feedback_state dd d x v g s3) as Hs5;
      destruct (collect_feedback dd d x v g s3) as [[fb | e] s5] eqn:Hfb
  end;
    [ rewrite (bind_ok _ _ _ _ _ Hfb) in H
    | rewrite (bind_raise _ _ _ _ _ Hfb) in H ];
    cbn [snd] in Hs5; subst s5.
  2:{ injection H as <- <-. do 2 eexists. cbn [invocations invoked pending].
      rewrite Hl0, Hp0, <- !app_assoc. split; [ reflexivity | ]. now split. }
  match type of H with
  | bind _ _ ?s3 = _ =>
      destruct (retry_or_complete dd fb d x g workflow_input s3)
        as [[c | e] s6] eqn:Hend
  end;
    [ rewrite (bind_ok _ _ _ _ _ Hend) in H
    | rewrite (bind_raise _ _ _ _ _ Hend) in H ].
  - injection H as <- <-.
    assert (Hl6 : invocations s6
                  = invocations
                      (invoked
                         (invoked
                            (invoked s0 (path_join TOOLS_DIR "generate.nu")
                               (generate_input d workflow_input) w1)
                            (path_join TOOLS_DIR "run-tool.nu")
                            (execute_input d t ti) w2)
                         (path_join TOOLS_DIR "validate.nu")
                         (validate_input d x workflow_input) w3)).
    { apply retry_or_complete_ok_inv in Hend.
      destruct dd; [ now destruct Hend as [-> _]
                   | now destruct Hend as [-> _]
                   | now destruct Hend as (_ & _ & _ & _ & -> & _) ]. }
    do 2 eexists. rewrite Hl6. cbn [invocations invoked].
    rewrite Hl0, <- !app_assoc. split; [ reflexivity | ]. now split.
  - injection H as <- <-. apply retry_or_complete_raise in Hend. subst s6.
    do 2 eexists. cbn [invocations invoked pending].
    rewrite Hl0, Hp0, <- !app_assoc. split; [ reflexivity | ]. now split.
Qed.

(** X3: when the work directory cannot be made, the run fails at once with
    the error of [mkdtemp]: no tool has been invoked and no run spawned. *)
Theorem workspace_failure_is_fatal (run_id : string)
  (workflow_input : WorkflowInput) (s : State W) (w : W) :
  os_mkdtemp ("fire-flow-" ++ substring 0 8 run_id ++ "-") (world s)
    = (None, w) ->
  ContractLoopWorkflow run_id workflow_input s
    = (Raise OSError,
       {| world := w; invocations := invocations s; pending := pending s |}).
Proof.
  intros H. unfold ContractLoopWorkflow.
  apply bind_raise. unfold init, bind, mkdtemp. now rewrite H.
Qed.

(** X4: a run that completes has invoked exactly the generator, the executor
    and the validator, once each and in this order.  The three requests carry
    the run's id as trace id, the executor is given the tool path that
    [generate] returned, and the validator is given the output path the
    executor was given, in the run's work directory. *)
Theorem completed_run_trace (run_id : string)
  (workflow_input : WorkflowInput) (s s' : State W) (o : RunOutputs) :
  ContractLoopWorkflow run_id workflow_input s = (Ok o, s') ->
  exists t ti,
    dict_get "tool_path" (out_generate o) = Some t
    /\ json_loads (match input_json workflow_input with
                   | Some text => text
                   | None => "{}"
                   end) = Some ti
    /\ invocations s'
         = (invocations s
              ++ [(path_join TOOLS_DIR "generate.nu",
                   generate_input (out_init o) workflow_input);
                  (path_join TOOLS_DIR "run-tool.nu",
                   execute_input (out_init o) t ti);
                  (path_join TOOLS_DIR "validate.nu",
                   validate_input (out_init o) (out_execute o)
                     workflow_input)])%list
    /\ init_trace_id (out_init o) = run_id
    /\ exec_output_path (out_execute o)
         = path_join (init_work_dir (out_init o)) "output.json".
Proof.
  intros H.
  destruct (workflow_ok_inv _ _ _ _ _ H)
    as (s0 & s1 & s2 & s3 & Hinit & Hgen & Hexec & Hval & _ & _ & Hend).
  apply init_ok_inv in Hinit as (Htrace & _ & _ & _ & Hl0 & _).
  destruct (generate_effect (out_init o) workflow_input s0) as [w1 Hs1].
  rewrite Hgen in Hs1. cbn [snd] in Hs1. subst s1.
  apply execute_effect in Hexec
    as [(_ & e & He) | (t & ti & w2 & Ht & Hti & -> & Hout & _)];
    [ discriminate He | ].
  destruct (validate_effect (out_init o) (out_execute o) workflow_input
              (invoked
                 (invoked s0 (path_join TOOLS_DIR "generate.nu")
                    (generate_input (out_init o) workflow_input) w1)
                 (path_join TOOLS_DIR "run-tool.nu")
                 (execute_input (out_init o) t ti) w2)) as [w3 Hs3].
  rewrite Hval in Hs3. cbn [snd] in Hs3. subst s3.
  exists t, ti. split; [ exact Ht | ]. split; [ exact Hti | ].
  split; [ | now split ].
  apply retry_or_complete_ok_inv in Hend.
  assert (Hl : invocations s'
               = (((invocations s0
                      ++ [(path_join TOOLS_DIR "generate.nu",
                           generate_input (out_init o) workflow_input)])
                     ++ [(path_join TOOLS_DIR "run-tool.nu",
                          execute_input (out_init o) t ti)])
                    ++ [(path_join TOOLS_DIR "validate.nu",
                         validate_input (out_init o) (out_execute o)
                           workflow_input)])%list).
  { destruct (out_decide o);
      [ now destruct Hend as [-> _]
      | now destruct Hend as [-> _]
      | now destruct Hend as (_ & _ & _ & _ & -> & _) ]. }
  rewrite Hl, Hl0, <- !app_assoc. reflexivity.
Qed.

(** X5: no run, completed or failed, invokes a tool out of turn or twice:
    what it adds to the log is an initial part of generator, executor,
    validator. *)
Theorem run_invokes_in_order (run_id : string)
  (workflow_input : WorkflowInput) (s : State W) :
  exists l rest,
    invocations (snd (ContractLoopWorkflow run_id workflow_input s))
      = (invocations s ++ l)%list
    /\ (map fst l ++ rest)%list = attempt_scripts.
Proof.
  destruct (ContractLoopWorkflow run_id workflow_input s) as [r s'] eqn:H.
  apply workflow_effect in H as (l & rest & Hl & Hscripts & _).
  exists l, rest. now split.
Qed.

(** X6: a run that fails, at whatever step and with whatever exception,
    spawns no retry. *)
Theorem failed_run_spawns_nothing (run_id : string)
  (workflow_input : WorkflowInput) (s s' : State W) (e : exn) :
  ContractLoopWorkflow run_id workflow_input s = (Raise e, s') ->
  pending s' = pending s.
Proof.
  intros H. now apply workflow_effect in H as (l & rest & _ & _ & Hp).
Qed.

End RunTraces.

(** * Edges of the steps *)

Section StepEdges.

Context {W : Type} {runtime : PyRuntime} {host : Host W}.

(** X7: the executor's failure is tolerated: whatever its exit status and
    output, once its process has come to an end the Execute step returns,
    with the two paths in the work directory and the invoker's result kept
    aside as [execution_result]; after a nonzero exit that result is the
    failure dict.  The Validate step does not look at it. *)
Theorem executor_failure_is_tolerated (init_data : InitData)
  (gen_data : pydict) (workflow_input : WorkflowInput) (s : State W)
  (t ti : pyval) (p : CompletedProcess) (w : W) :
  dict_get "tool_path" gen_data = Some t ->
  json_loads (match input_json workflow_input with
              | Some text => text
              | None => "{}"
              end) = Some ti ->
  os_run ["nu"; path_join TOOLS_DIR "run-tool.nu"]
    (json_dumps (execute_input init_data t ti)) 300 (world s)
    = (Completed p, w) ->
  exists r,
    execute init_data gen_data workflow_input s
      = (Ok {| exec_output_path :=
                 path_join (init_work_dir init_data) "output.json";
               exec_logs_path :=
                 path_join (init_work_dir init_data) "logs.json";
               execution_result := r |},
         invoked s (path_join TOOLS_DIR "run-tool.nu")
           (execute_input init_data t ti) w)
    /\ (returncode p <> 0 -> r = failure_result p)
    /\ forall r',
         validate init_data
           {| exec_output_path :=
                path_join (init_work_dir init_data) "output.json";
              exec_logs_path :=
                path_join (init_work_dir init_data) "logs.json";
              execution_result := r |} workflow_input
         = validate init_data
             {| exec_output_path :=
                  path_join (init_work_dir init_data) "output.json";
                exec_logs_path :=
                  path_join (init_work_dir init_data) "logs.json";
                execution_result := r' |} workflow_input.
Proof.
  intros Ht Hti Hrun.
  apply run_nu_script_completed in Hrun.
  eexists. split; [ | split ].
  - unfold execute. cbv zeta.
    rewrite (bind_ok (py_getitem gen_data "tool_path") _ s s t)
      by (unfold py_getitem; now rewrite Ht).
    rewrite (bind_ok (loads _) _ s s ti)
      by (unfold loads; now rewrite Hti).
    fold (execute_input init_data t ti).
    rewrite (bind_ok _ _ _ _ _ Hrun). reflexivity.
  - intros Hrc. apply Z.eqb_neq in Hrc. now rewrite Hrc.
  - reflexivity.
Qed.

(** What [validate] returns on a dict without [data]. *)
Lemma validate_without_data (init_data : InitData) (exec_data : ExecData)
  (workflow_input : WorkflowInput) (s s1 : State W) (d : pydict) :
  run_nu_script (path_join TOOLS_DIR "validate.nu")
    (validate_input init_data exec_data workflow_input) s
    = (Ok (PDict d), s1) ->
  dict_get "data" d = None ->
  validate init_data exec_data workflow_input s
    = (Ok {| valid := PBool false; validation_result := PDict d |}, s1).
Proof.
  intros Hrun Hdata. unfold validate.
  fold (validate_input init_data exec_data workflow_input).
  rewrite (bind_ok _ _ _ _ _ Hrun).
  unfold valid_flag, bind, py_get, ret. now rewrite Hdata.
Qed.

(** X8: a validator that fails as a process counts as a validation that
    failed.  After a nonzero exit, or a zero exit with output that is not
    JSON, the Validate step returns [valid = False] with the invoker's dict
    as validation result, and the Decide step then retries below the ceiling
    and escalates at it, with that dict as [last_error]. *)
Theorem validator_failure_counts_as_invalid (init_data : InitData)
  (exec_data : ExecData) (workflow_input : WorkflowInput) (s : State W)
  (p : CompletedProcess) (w : W) :
  os_run ["nu"; path_join TOOLS_DIR "validate.nu"]
    (json_dumps (validate_input init_data exec_data workflow_input)) 300
    (world s) = (Completed p, w) ->
  returncode p <> 0 \/ json_loads (stdout p) = None ->
  let r := if negb (returncode p =? 0) then failure_result p
           else PDict [("success", PBool true);
                       ("raw_output", PStr (stdout p))] in
  let val_data := {| valid := PBool false; validation_result := r |} in
  validate init_data exec_data workflow_input s
    = (Ok val_data,
       invoked s (path_join TOOLS_DIR "validate.nu")
         (validate_input init_data exec_data workflow_input) w)
  /\ forall gen_data a (s1 : State W),
       dict_get "attempt" gen_data = Some (PInt a) ->
       decide init_data gen_data val_data s1
         = (Ok (if init_max_attempts init_data <=? a
                then DecideEscalate (PInt a) r
                else DecideRetry (PInt a)), s1).
Proof.
  intros Hrun Hfail r val_data.
  apply run_nu_script_completed in Hrun.
  split.
  - assert (Hr : exists d, r = PDict d /\ dict_get "data" d = None
                           /\ (if negb (returncode p =? 0)
                               then failure_result p
                               else match json_loads (stdout p) with
                                    | Some v => v
                                    | None =>
                                        PDict [("success", PBool true);
                                               ("raw_output",
                                                PStr (stdout p))]
                                    end) = r).
    { subst r. destruct (returncode p =? 0) eqn:Hrc; cbn [negb].
      - destruct Hfail as [Hnz | Hbad].
        + apply Z.eqb_eq in Hrc. contradiction.
        + rewrite Hbad. eexists. now repeat split.
      - eexists. now repeat split. }
    destruct Hr as (d & Hd & Hdata & Heq).
    unfold failure_result in Heq. rewrite Heq in Hrun.
    subst val_data. rewrite Hd in *.
    exact (validate_without_data _ _ _ _ _ _ Hrun Hdata).
  - intros gen_data a s1 Ha.
    unfold decide, bind, py_getitem, py_ge_int, ret. cbn.
    rewrite Ha. now destruct (init_max_attempts init_data <=? a).
Qed.

(** X9: a validator response of another shape is an error, not a verdict:
    when the response parses to something that is not a dict, or has a
    [data] that is not a dict, the Validate step raises [AttributeError], so
    the run fails there and the Decide step does not run. *)
Theorem malformed_validation_raises (init_data : InitData)
  (exec_data : ExecData) (workflow_input : WorkflowInput) (s s1 : State W)
  (response : pyval) :
  run_nu_script (path_join TOOLS_DIR "validate.nu")
    (validate_input init_data exec_data workflow_input) s
    = (Ok response, s1) ->
  is_dict response = false
  \/ (exists d data, response = PDict d
                     /\ dict_get "data" d = Some data
                     /\ is_dict data = false) ->
  validate init_data exec_data workflow_input s = (Raise AttributeError, s1).
Proof.
  intros Hrun Hshape. unfold validate.
  fold (validate_input init_data exec_data workflow_input).
  rewrite (bind_ok _ _ _ _ _ Hrun).
  apply bind_raise.
  unfold valid_flag, bind, py_get, ret, raise.
  destruct Hshape as [Hnot | (d & data & -> & Hdata & Hnot)].
  - destruct response; try reflexivity. discriminate Hnot.
  - rewrite Hdata. destruct data; try reflexivity. discriminate Hnot.
Qed.

Lemma dict_get_app (k : string) (d e : pydict) :
  dict_get k (d ++ e)%list
    = match dict_get k d with
      | Some v => Some v
      | None => dict_get k e
      end.
Proof.
  induction d as [ | [k' v'] d IH]; cbn.
  - reflexivity.
  - destruct (String.eqb k k'); [ reflexivity | exact IH ].
Qed.

Lemma dict_get_absent (k : string) (d : pydict) :
  ~ In k (map fst d) -> dict_get k d = None.
Proof.
  induction d as [ | [k' v'] d IH]; cbn; intros H.
  - reflexivity.
  - destruct (String.eqb k k') eqn:E.
    + apply String.eqb_eq in E. subst k'. exfalso. apply H. now left.
    + apply IH. intros Hin. apply H. now right.
Qed.

(** In a dict, whose keys are distinct, the order of the items does not
    matter to a lookup. *)
Lemma dict_get_rev_nodup (k : string) (d : pydict) :
  NoDup (map fst d) -> dict_get k (rev d) = dict_get k d.
Proof.
  induction d as [ | [k' v'] d IH]; cbn; intros Hnd.
  - reflexivity.
  - inversion Hnd as [ | ? ? Hnotin Hnd' ]; subst.
    rewrite dict_get_app, (IH Hnd'). cbn.
    destruct (String.eqb k k') eqn:E.
    + apply String.eqb_eq in E. subst k'.
      now rewrite (dict_get_absent _ _ Hnotin).
    + now destruct (dict_get k d).
Qed.

(** What [generate] returns on a response with a true [success]. *)
Lemma generate_ok (init_data : InitData) (workflow_input : WorkflowInput)
  (s s1 : State W) (items : pydict) :
  run_nu_script (path_join TOOLS_DIR "generate.nu")
    (generate_input init_data workflow_input) s = (Ok (PDict items), s1) ->
  (exists v, dict_get "success" items = Some v /\ py_truthy v = true) ->
  generate init_data workflow_input s
    = (Ok (dict_update
             [("tool_path",
               PStr (path_join (init_work_dir init_data) "tool.nu"));
              ("attempt", PInt (init_attempt init_data + 1))] items), s1).
Proof.
  intros Hrun (v & Hv & Htrue).
  unfold generate. cbv zeta. rewrite (bind_ok _ _ _ _ _ Hrun).
  unfold bind, py_get, ret. now rewrite Hv, Htrue.
Qed.

(** X10: what the Generate step returns is the generator's response laid
    over the step's own two entries: every entry of the response is in it,
    also a [tool_path] or an [attempt], which then replace the step's; the
    step's own path and counter are there only when the response has no
    such key. *)
Theorem generate_merges_response (init_data : InitData)
  (workflow_input : WorkflowInput) (s s1 : State W) (items : pydict) :
  run_nu_script (path_join TOOLS_DIR "generate.nu")
    (generate_input init_data workflow_input) s = (Ok (PDict items), s1) ->
  (exists v, dict_get "success" items = Some v /\ py_truthy v = true) ->
  NoDup (map fst items) ->
  exists gen_data,
    generate init_data workflow_input s = (Ok gen_data, s1)
    /\ (forall k v, dict_get k items = Some v ->
                    dict_get k gen_data = Some v)
    /\ (dict_get "tool_path" items = None ->
        dict_get "tool_path" gen_data
          = Some (PStr (path_join (init_work_dir init_data) "tool.nu")))
    /\ (dict_get "attempt" items = None ->
        dict_get "attempt" gen_data
          = Some (PInt (init_attempt init_data + 1)))
    /\ (forall k, dict_get k items = None ->
                  k <> "tool_path" -> k <> "attempt" ->
                  dict_get k gen_data = None).
Proof.
  intros Hrun Hsuccess Hnd.
  eexists. split; [ exact (generate_ok _ _ _ _ _ Hrun Hsuccess) | ].
  repeat split.
  - intros k v Hk. now rewrite dict_get_update, dict_get_rev_nodup, Hk.
  - intros Hk. now rewrite dict_get_update, dict_get_rev_nodup, Hk.
  - intros Hk. now rewrite dict_get_update, dict_get_rev_nodup, Hk.
  - intros k Hk H1 H2.
    rewrite dict_get_update, dict_get_rev_nodup, Hk by assumption. cbn.
    apply String.eqb_neq in H1, H2. now rewrite H1, H2.
Qed.

(** X11: the attempt that the Decide step compares with the ceiling is the
    one in the output of the Generate step, so a generator whose response
    has an [attempt] that is not a number (as when it echoes the "1/5" of
    its request) makes the Decide step raise [TypeError] once validation
    has failed; when validation has passed the comparison is not made and
    the decision is success, with that value as the attempts made. *)
Theorem non_numeric_attempt_breaks_decide (init_data : InitData)
  (workflow_input : WorkflowInput) (s s1 : State W) (items : pydict)
  (a : pyval) :
  run_nu_script (path_join TOOLS_DIR "generate.nu")
    (generate_input init_data workflow_input) s = (Ok (PDict items), s1) ->
  (exists v, dict_get "success" items = Some v /\ py_truthy v = true) ->
  NoDup (map fst items) ->
  dict_get "attempt" items = Some a ->
  is_number a = false ->
  exists gen_data,
    generate init_data workflow_input s = (Ok gen_data, s1)
    /\ forall (val_data : ValData) (s2 : State W),
         (py_truthy (valid val_data) = false ->
          decide init_data gen_data val_data s2 = (Raise TypeError, s2))
         /\ (py_truthy (valid val_data) = true ->
             decide init_data gen_data val_data s2
               = (Ok (DecideSuccess a), s2)).
Proof.
  intros Hrun Hsuccess Hnd Ha Hnum.
  eexists. split; [ exact (generate_ok _ _ _ _ _ Hrun Hsuccess) | ].
  intros val_data s2.
  unfold decide, bind, py_getitem, py_ge_int, ret, raise.
  rewrite dict_get_update, dict_get_rev_nodup, Ha by assumption.
  split; intros ->.
  - destruct a; try reflexivity; discriminate Hnum.
  - reflexivity.
Qed.

(** X12: when the output file can be read, the feedback for a retry has its
    content under the line "OUTPUT PRODUCED:", after the dump of the
    validation result and before the empty line and the instruction that
    end the message; the file is read and nothing else is done. *)
Theorem collect_feedback_with_output (a0 a : pyval) (init_data : InitData)
  (exec_data : ExecData) (val_data : ValData) (gen_data : pydict)
  (s : State W) (output_content : string) :
  dict_get "attempt" gen_data = Some a ->
  os_read (exec_output_path exec_data) (world s) = Some output_content ->
  collect_feedback (DecideRetry a0) init_data exec_data val_data gen_data s
    = (Ok (Some (String.concat nl
                   ["ATTEMPT " ++ py_str a ++ "/"
                      ++ str_of_int (init_max_attempts init_data)
                      ++ " FAILED.";
                    EmptyString;
                    "CONTRACT ERRORS:";
                    json_dumps_indent 2 (validation_result val_data);
                    "OUTPUT PRODUCED:" ++ nl ++ output_content;
                    EmptyString;
                    "FIX THE NUSHELL SCRIPT TO SATISFY THE CONTRACT."])),
       s).
Proof.
  intros Hattempt Hread.
  unfold collect_feedback, bind, py_getitem, try_except, open_read, ret.
  cbn. rewrite Hattempt. cbn. now rewrite Hread.
Qed.

End StepEdges.

(** * Results of a run *)

Section RunResults.

Context {W : Type} {runtime : PyRuntime} {host : Host W}.

(** [collect_feedback] returns a message exactly for the decision to
    retry. *)
Lemma collect_feedback_ok_inv (d : DecideData) (init_data : InitData)
  (exec_data : ExecData) (val_data : ValData) (gen_data : pydict)
  (s s' : State W) (fb : option string) :
  collect_feedback d init_data exec_data val_data gen_data s = (Ok fb, s') ->
  match d with
  | DecideRetry _ => exists text, fb = Some text
  | _ => fb = None
  end.
Proof.
  unfold collect_feedback, bind, py_getitem, try_except, open_read, ret,
    raise.
  destruct d as [a | a last_error | a0]; cbn.
  - intros H. now injection H as <- _.
  - intros H. now injection H as <- _.
  - destruct (dict_get "attempt" gen_data); [ | intros H; discriminate H ].
    destruct (os_read (exec_output_path exec_data) (world s)); cbn;
      intros H; injection H as <- _; eauto.
Qed.

(** The result of a completed run, by its three shapes. *)
Lemma run_result_inv (run_id : string) (workflow_input : WorkflowInput)
  (s s' : State W) (o : RunOutputs) :
  ContractLoopWorkflow run_id workflow_input s = (Ok o, s') ->
  exists a,
    dict_get "attempt" (out_generate o) = Some a
    /\ match out_retry_or_complete o with
       | StatusSuccess path t a' =>
           path = path_join (init_work_dir (out_init o)) "output.json"
           /\ dict_get "tool_path" (out_generate o) = Some t
           /\ a' = a
           /\ py_truthy (valid (out_validate o)) = true
           /\ out_collect_feedback o = None
           /\ pending s' = pending s
       | StatusEscalated message a' last_error =>
           message = escalation_message
           /\ a' = a
           /\ last_error = Some (validation_result (out_validate o))
           /\ py_truthy (valid (out_validate o)) = false
           /\ py_ge_int a (init_max_attempts (out_init o)) s = (Ok true, s)
           /\ out_collect_feedback o = None
           /\ pending s' = pending s
       | StatusRetrying a' =>
           a' = a
           /\ py_truthy (valid (out_validate o)) = false
           /\ py_ge_int a (init_max_attempts (out_init o)) s = (Ok false, s)
           /\ exists text,
                out_collect_feedback o = Some text
                /\ pending s'
                     = (pending s
                          ++ [("ContractLoopWorkflow",
                               {| contract := contract workflow_input;
                                  task := task workflow_input;
                                  input_json := input_json workflow_input;
                                  max_attempts :=
                                    max_attempts workflow_input;
                                  _retry_state :=
                                    Some {| retry_attempt := a;
                                            retry_feedback := Some text;
                                            retry_trace_id := run_id;
                                            retry_work_dir :=
                                              init_work_dir (out_init o)
                                         |} |})])%list
       end.
Proof.
  intros H.
  destruct (workflow_ok_inv _ _ _ _ _ H)
    as (s0 & s1 & s2 & s3 & Hinit & Hgen & Hexec & Hval & Hdec & Hfb & Hend).
  assert (Hp : pending s3 = pending s).
  { destruct (invokes_only_at _ _ _ _ (invokes_only_init _ _) Hinit)
      as [_ E0].
    destruct (invokes_only_at _ _ _ _ (invokes_only_generate _ _) Hgen)
      as [_ E1].
    destruct (invokes_only_at _ _ _ _ (invokes_only_execute _ _ _) Hexec)
      as [_ E2].
    destruct (invokes_only_at _ _ _ _ (invokes_only_validate _ _ _) Hval)
      as [_ E3].
    congruence. }
  apply init_ok_inv in Hinit as (Htrace & _).
  apply execute_effect in Hexec
    as [(_ & e & He) | (_ & _ & _ & _ & _ & _ & Hout & _)];
    [ discriminate He | ].
  apply decide_ok_inv in Hdec as (a & Ha & Hcases).
  apply collect_feedback_ok_inv in Hfb.
  apply retry_or_complete_ok_inv in Hend.
  exists a. split; [ exact Ha | ].
  assert (Hge : forall b (t : State W),
             py_ge_int a (init_max_attempts (out_init o)) t = (Ok b, t) ->
             py_ge_int a (init_max_attempts (out_init o)) s = (Ok b, s)).
  { intros b t. unfold py_ge_int, ret, raise.
    destruct a; intros E; try discriminate E; now injection E as <-. }
  destruct Hcases as [[Hv Hd] | [(Hv & Hcmp & Hd) | (Hv & Hcmp & Hd)]];
    rewrite Hd in Hend, Hfb; cbn in Hend.
  - destruct Hend as (-> & t & Ht & ->). now repeat split.
  - destruct Hend as (-> & ->). repeat split; eauto.
  - destruct Hend as (a' & Ha' & -> & _ & _ & Hpending).
    assert (a' = a) by congruence. subst a'.
    destruct Hfb as [text Htext].
    repeat split; eauto.
    exists text. split; [ exact Htext | ].
    now rewrite Hpending, Hp, Htext, Htrace.
Qed.

(** X13: the three results of a completed run.  Success has the output path
    in the work directory, the tool path and the attempt of the Generate
    step, and is returned exactly after a passed validation; escalation has
    the fixed message, that attempt and the validation result of this run as
    last error; neither leaves feedback or spawns a run.  "retrying" comes
    with feedback and one spawned run, whose input is the input of this run
    with, under ["_retry_state"], that attempt, that feedback, this run's id
    and its work directory. *)
Theorem completed_run_result (run_id : string)
  (workflow_input : WorkflowInput) (s s' : State W) (o : RunOutputs) :
  ContractLoopWorkflow run_id workflow_input s = (Ok o, s') ->
  exists a,
    dict_get "attempt" (out_generate o) = Some a
    /\ match out_retry_or_complete o with
       | StatusSuccess path t a' =>
           path = path_join (init_work_dir (out_init o)) "output.json"
           /\ dict_get "tool_path" (out_generate o) = Some t
           /\ a' = a
           /\ py_truthy (valid (out_validate o)) = true
           /\ out_collect_feedback o = None
           /\ pending s' = pending s
       | StatusEscalated message a' last_error =>
           message = escalation_message
           /\ a' = a
           /\ last_error = Some (validation_result (out_validate o))
           /\ py_truthy (valid (out_validate o)) = false
           /\ out_collect_feedback o = None
           /\ pending s' = pending s
       | StatusRetrying a' =>
           a' = a
           /\ py_truthy (valid (out_validate o)) = false
           /\ exists text,
                out_collect_feedback o = Some text
                /\ pending s'
                     = (pending s
                          ++ [("ContractLoopWorkflow",
                               {| contract := contract workflow_input;
                                  task := task workflow_input;
                                  input_json := input_json workflow_input;
                                  max_attempts :=
                                    max_attempts workflow_input;
                                  _retry_state :=
                                    Some {| retry_attempt := a;
                                            retry_feedback := Some text;
                                            retry_trace_id := run_id;
                                            retry_work_dir :=
                                              init_work_dir (out_init o)
                                         |} |})])%list
       end.
Proof.
  intros H. destruct (run_result_inv _ _ _ _ _ H) as (a & Ha & Hres).
  exists a. split; [ exact Ha | ].
  destruct (out_retry_or_complete o).
  - exact Hres.
  - destruct Hres as (H1 & H2 & H3 & H4 & _ & H6 & H7). now repeat split.
  - destruct Hres as (H1 & H2 & _ & H4). now repeat split.
Qed.


End RunResults.

(** * A validator that accepts *)

Section Acceptance.

Context {W : Type} {runtime : PyRuntime} {host : Host W}.



End Acceptance.

(** * More examples *)

Lemma run_nu_script_nonzero_exit_witness :
  exists d,
    fst (run_nu_script (runtime := RefRuntime.runtime)
           (host := Demo.host Demo.broken_generator)
           Demo.generate_nu (PDict [("task", PStr "echo")]) Demo.empty)
      = Ok (PDict d)
    /\ dict_get "success" d = Some (PBool false)
    /\ dict_get "error" d = Some (PStr "model unavailable").
Proof.
  destruct (@run_nu_script_nonzero_exit _ RefRuntime.runtime
              (Demo.host Demo.broken_generator) Demo.generate_nu
              (PDict [("task", PStr "echo")]) Demo.empty
              {| returncode := 1; stdout := EmptyString;
                 stderr := "model unavailable" |}
              (world Demo.empty) eq_refl ltac:(discriminate))
    as (d & H1 & H2 & _ & H4 & _).
  exists d. split; [ exact H1 | ]. split; [ exact H2 | ].
  apply H4. discriminate.
Defined.

Lemma workspace_failure_is_fatal_witness :
  ContractLoopWorkflow (runtime := RefRuntime.runtime)
    (host := Cases.full_disk Demo.stubborn) "0000-run-0"
    (Demo.echo_input (Some 2) None) Demo.empty
    = (Raise OSError, Demo.empty).
Proof.
  exact (@workspace_failure_is_fatal _ RefRuntime.runtime
           (Cases.full_disk Demo.stubborn) "0000-run-0"
           (Demo.echo_input (Some 2) None) Demo.empty (world Demo.empty)
           eq_refl).
Defined.

Lemma completed_run_trace_witness :
  exists o s',
    Cases.run Demo.stubborn (Some 2) = (Ok o, s')
    /\ map fst (invocations s')
         = [Demo.generate_nu; Demo.run_tool_nu; Demo.validate_nu]
    /\ map (request_field "context") (invocations s')
         = [Some (PDict [("trace_id", PStr "0000-run-0")]);
            Some (PDict [("trace_id", PStr "0000-run-0")]);
            Some (PDict [("trace_id", PStr "0000-run-0")])].
Proof.
  destruct (Cases.run Demo.stubborn (Some 2)) as [[o | e] s'] eqn:H;
    [ | vm_compute in H; discriminate H ].
  exists o, s'. split; [ reflexivity | ].
  destruct (@completed_run_trace _ RefRuntime.runtime
              (Demo.host Demo.stubborn) "0000-run-0"
              (Demo.echo_input (Some 2) None) Demo.empty s' o H)
    as (t & ti & _ & _ & Hl & Htrace & _).
  rewrite Hl. cbn [map app invocations Demo.empty fst].
  split; [ reflexivity | ].
  unfold request_field, generate_input, execute_input, validate_input.
  cbn. now rewrite Htrace.
Defined.

Lemma failed_run_spawns_nothing_witness :
  exists e s',
    Cases.run Demo.broken_generator (Some 2) = (Raise e, s')
    /\ pending s' = [].
Proof.
  destruct (Cases.run Demo.broken_generator (Some 2)) as [[o | e] s'] eqn:H;
    [ vm_compute in H; discriminate H | ].
  exists e, s'. split; [ reflexivity | ].
  exact (@failed_run_spawns_nothing _ RefRuntime.runtime
           (Demo.host Demo.broken_generator) "0000-run-0"
           (Demo.echo_input (Some 2) None) Demo.empty s' e H).
Defined.

Lemma executor_failure_is_tolerated_witness :
  exists x s',
    execute (runtime := RefRuntime.runtime)
      (host := Demo.host Cases.broken_executor)
      Demo.init_data Demo.gen_data (Demo.echo_input (Some 2) None)
      Demo.empty = (Ok x, s')
    /\ execution_result x
         = PDict [("success", PBool false);
                  ("error", PStr "Exit code: 2");
                  ("stdout", PStr "partial output")].
Proof.
  destruct (@executor_failure_is_tolerated _ RefRuntime.runtime
              (Demo.host Cases.broken_executor)
              Demo.init_data Demo.gen_data (Demo.echo_input (Some 2) None)
              Demo.empty (PStr "/tmp/fire-flow-0000-run-0/tool.nu")
              (PDict [])
              {| returncode := 2; stdout := "partial output";
                 stderr := EmptyString |}
              (world Demo.empty) eq_refl eq_refl eq_refl)
    as (r & Hexec & Hfail & _).
  do 2 eexists. split; [ exact Hexec | ].
  cbn [execution_result]. apply Hfail. discriminate.
Defined.

Lemma validator_failure_counts_as_invalid_witness :
  exists s',
    validate (runtime := RefRuntime.runtime)
      (host := Demo.host Cases.broken_validator)
      Demo.init_data Demo.exec_data (Demo.echo_input (Some 2) None)
      Demo.empty
      = (Ok {| valid := PBool false;
               validation_result :=
                 PDict [("success", PBool false);
                        ("error", PStr "datacontract: not found");
                        ("stdout", PStr EmptyString)] |}, s').
Proof.
  assert (Hrun : os_run (Host := Demo.host Cases.broken_validator)
                   ["nu";
                    path_join
                      (TOOLS_DIR (host := Demo.host Cases.broken_validator))
                      "validate.nu"]
                   (json_dumps (PyRuntime := RefRuntime.runtime)
                      (validate_input Demo.init_data Demo.exec_data
                         (Demo.echo_input (Some 2) None))) 300
                   (world Demo.empty)
                 = (Completed {| returncode := 1; stdout := EmptyString;
                                 stderr := "datacontract: not found" |},
                    world Demo.empty))
    by (vm_compute; reflexivity).
  assert (Hnz : returncode {| returncode := 1; stdout := EmptyString;
                              stderr := "datacontract: not found" |} <> 0)
    by discriminate.
  destruct (@validator_failure_counts_as_invalid _ RefRuntime.runtime
              (Demo.host Cases.broken_validator)
              Demo.init_data Demo.exec_data
              (Demo.echo_input (Some 2) None) Demo.empty
              _ _ Hrun (or_introl Hnz)) as [H _].
  eexists. exact H.
Defined.

Lemma malformed_validation_raises_witness :
  fst (validate (runtime := RefRuntime.runtime)
         (host := Demo.host Cases.listing_validator)
         Demo.init_data Demo.exec_data (Demo.echo_input (Some 2) None)
         Demo.empty)
    = Raise AttributeError.
Proof.
  match goal with
  | |- context [validate ?d ?x ?i ?s] =>
      assert (H : run_nu_script (runtime := RefRuntime.runtime)
                    (host := Demo.host Cases.listing_validator)
                    (path_join
                       (TOOLS_DIR
                          (host := Demo.host Cases.listing_validator))
                       "validate.nu")
                    (validate_input d x i) s
                  = (Ok (PList [PStr "ok"]),
                     snd (run_nu_script (runtime := RefRuntime.runtime)
                            (host := Demo.host Cases.listing_validator)
                            (path_join
                               (TOOLS_DIR
                                  (host :=
                                     Demo.host Cases.listing_validator))
                               "validate.nu")
                            (validate_input d x i) s)))
        by (vm_compute; reflexivity)
  end.
  now rewrite (@malformed_validation_raises _ RefRuntime.runtime
                 (Demo.host Cases.listing_validator) _ _ _ _ _ _ H
                 (or_introl eq_refl)).
Defined.

(** The response of the echoing generator, as the invoker returns it. *)
Lemma echoing_generator_response :
  run_nu_script (runtime := RefRuntime.runtime)
    (host := Demo.host Cases.echoing_generator)
    (path_join (TOOLS_DIR (host := Demo.host Cases.echoing_generator))
       "generate.nu")
    (generate_input Demo.init_data (Demo.echo_input (Some 2) None))
    Demo.empty
  = (Ok (PDict [("success", PBool true);
                ("attempt", PStr "1/5");
                ("tool_path", PStr "/opt/tools/echo.nu")]),
     snd (run_nu_script (runtime := RefRuntime.runtime)
            (host := Demo.host Cases.echoing_generator)
            (path_join
               (TOOLS_DIR (host := Demo.host Cases.echoing_generator))
               "generate.nu")
            (generate_input Demo.init_data (Demo.echo_input (Some 2) None))
            Demo.empty)).
Proof. vm_compute. reflexivity. Qed.

Lemma echoing_generator_keys :
  NoDup (map fst [("success", PBool true);
                  ("attempt", PStr "1/5");
                  ("tool_path", PStr "/opt/tools/echo.nu")]).
Proof.
  repeat constructor; cbn; intros H;
    repeat (destruct H as [H | H]; [ discriminate H | ]); exact H.
Qed.

Lemma generate_merges_response_witness :
  exists g s1,
    generate (runtime := RefRuntime.runtime)
      (host := Demo.host Cases.echoing_generator)
      Demo.init_data (Demo.echo_input (Some 2) None) Demo.empty
      = (Ok g, s1)
    /\ dict_get "attempt" g = Some (PStr "1/5")
    /\ dict_get "tool_path" g = Some (PStr "/opt/tools/echo.nu")
    /\ dict_get "success" g = Some (PBool true).
Proof.
  destruct (@generate_merges_response _ RefRuntime.runtime
              (Demo.host Cases.echoing_generator) Demo.init_data
              (Demo.echo_input (Some 2) None) Demo.empty _ _
              echoing_generator_response
              (ex_intro _ (PBool true) (conj eq_refl eq_refl))
              echoing_generator_keys)
    as (g & Hg & Hin & _).
  exists g. eexists. split; [ exact Hg | ].
  repeat split; apply Hin; reflexivity.
Defined.

Lemma non_numeric_attempt_breaks_decide_witness :
  exists g s1,
    generate (runtime := RefRuntime.runtime)
      (host := Demo.host Cases.echoing_generator)
      Demo.init_data (Demo.echo_input (Some 2) None) Demo.empty
      = (Ok g, s1)
    /\ decide (W := Demo.World) Demo.init_data g Demo.val_data Demo.empty
         = (Raise TypeError, Demo.empty).
Proof.
  destruct (@non_numeric_attempt_breaks_decide _ RefRuntime.runtime
              (Demo.host Cases.echoing_generator) Demo.init_data
              (Demo.echo_input (Some 2) None) Demo.empty _ _ (PStr "1/5")
              echoing_generator_response
              (ex_intro _ (PBool true) (conj eq_refl eq_refl))
              echoing_generator_keys eq_refl eq_refl)
    as (g & Hg & Hdecide).
  exists g. eexists. split; [ exact Hg | ].
  apply Hdecide. reflexivity.
Defined.

Lemma collect_feedback_with_output_witness :
  fst (collect_feedback (runtime := RefRuntime.runtime)
         (host := Demo.host Demo.silent)
         (DecideRetry (PInt 1)) Demo.init_data Demo.exec_data Demo.val_data
         Demo.gen_data Cases.with_output)
    = Ok (Some (String.concat nl
                  ["ATTEMPT 1/2 FAILED.";
                   EmptyString;
                   "CONTRACT ERRORS:";
                   RefRuntime.dumps_indent 2
                     (PDict [("data", PDict [("valid", PBool false)])]);
                   "OUTPUT PRODUCED:" ++ nl ++ "{}";
                   EmptyString;
                   "FIX THE NUSHELL SCRIPT TO SATISFY THE CONTRACT."])).
Proof.
  exact (f_equal fst
           (@collect_feedback_with_output Demo.World RefRuntime.runtime
              (Demo.host Demo.silent) (PInt 1) (PInt 1) Demo.init_data
              Demo.exec_data Demo.val_data Demo.gen_data Cases.with_output
              "{}" eq_refl eq_refl)).
Defined.

Lemma completed_run_result_witness :
  exists o s' text,
    Cases.run Demo.stubborn (Some 2) = (Ok o, s')
    /\ out_retry_or_complete o = StatusRetrying (PInt 1)
    /\ out_collect_feedback o = Some text
    /\ map (fun run => option_map retry_feedback (_retry_state (snd run)))
         (pending s')
       = [Some (Some text)]
    /\ map (fun run => option_map retry_work_dir (_retry_state (snd run)))
         (pending s')
       = [Some "/tmp/fire-flow-0000-run-0"].
Proof.
  destruct (Cases.run Demo.stubborn (Some 2)) as [[o | e] s'] eqn:H;
    [ | vm_compute in H; discriminate H ].
  pose proof (@completed_run_result _ RefRuntime.runtime
                (Demo.host Demo.stubborn) "0000-run-0"
                (Demo.echo_input (Some 2) None) Demo.empty s' o H)
    as (a & Ha & Hres).
  assert (Hretry : out_retry_or_complete o = StatusRetrying (PInt 1)
                   /\ init_work_dir (out_init o)
                        = "/tmp/fire-flow-0000-run-0").
  { vm_compute in H. injection H as <- _. split; reflexivity. }
  destruct Hretry as [Hretry Hdir].
  rewrite Hretry in Hres.
  destruct Hres as (_ & _ & text & Htext & Hp).
  exists o, s', text. split; [ reflexivity | ].
  split; [ exact Hretry | ]. split; [ exact Htext | ].
  rewrite Hp, Hdir. split; reflexivity.
Defined.




(** * The command line *)

Section CommandLine.

Context {W : Type} {runtime : PyRuntime} {host : Host W}.


End CommandLine.


(** * The tagging scripts *)

Section MergeTags.

Import Scripts.

Lemma str_lt_trans (a b c : string) : str_lt a b -> str_lt b c -> str_lt a c.
Proof.
  unfold str_lt, str_compare.
  exact (@RelationClasses.StrictOrder_Transitive _ _
           OrdersEx.String_as_OT.lt_strorder a b c).
Qed.

Lemma str_lt_irrefl (a : string) : ~ str_lt a a.
Proof.
  unfold str_lt, str_compare.
  exact (@RelationClasses.StrictOrder_Irreflexive _ _
           OrdersEx.String_as_OT.lt_strorder a).
Qed.

Lemma str_compare_cases (a b : string) :
  match str_compare a b with
  | Eq => a = b
  | Lt => str_lt a b
  | Gt => str_lt b a
  end.
Proof.
  unfold str_lt, str_compare.
  destruct (OrdersEx.String_as_OT.compare_spec a b) as [H | H | H];
    [ exact H | reflexivity | exact H ].
Qed.

Lemma insert_tag_in (t x : string) (l : list string) :
  In x (insert_tag t l) <-> x = t \/ In x l.
Proof.
  induction l as [ | u l IH]; cbn.
  - intuition.
  - pose proof (str_compare_cases t u) as Hc.
    destruct (str_compare t u); cbn.
    + subst u. intuition.
    + intuition.
    + rewrite IH. intuition.
Qed.

Lemma insert_tag_sorted (t : string) (l : list string) :
  Sorted.StronglySorted str_lt l ->
  Sorted.StronglySorted str_lt (insert_tag t l).
Proof.
  induction 1 as [ | u l Hs IH Hall]; cbn.
  - repeat constructor.
  - pose proof (str_compare_cases t u) as Hc.
    destruct (str_compare t u).
    + now constructor.
    + constructor; [ now constructor | ].
      constructor; [ exact Hc | ].
      apply Forall_forall. intros x Hx.
      apply (str_lt_trans _ u); [ exact Hc | ].
      now apply (proj1 (Forall_forall _ _) Hall).
    + constructor; [ exact IH | ].
      apply Forall_forall. intros x Hx.
      apply insert_tag_in in Hx as [-> | Hx]; [ exact Hc | ].
      now apply (proj1 (Forall_forall _ _) Hall).
Qed.

Lemma sorted_set_in (x : string) (l : list string) :
  In x (sorted_set l) <-> In x l.
Proof.
  induction l as [ | t l IH]; cbn.
  - reflexivity.
  - rewrite insert_tag_in, IH. intuition.
Qed.

Lemma sorted_set_sorted (l : list string) :
  Sorted.StronglySorted str_lt (sorted_set l).
Proof.
  induction l as [ | t l IH]; cbn.
  - constructor.
  - now apply insert_tag_sorted.
Qed.

(** Two ascending lists with the same elements are the same list. *)
Lemma ascending_unique (l1 : list string) :
  forall l2,
    Sorted.StronglySorted str_lt l1 ->
    Sorted.StronglySorted str_lt l2 ->
    (forall x, In x l1 <-> In x l2) ->
    l1 = l2.
Proof.
  induction l1 as [ | a l1 IH]; intros [ | b l2] H1 H2 Hsame.
  - reflexivity.
  - exfalso. apply (proj2 (Hsame b)). now left.
  - exfalso. apply (proj1 (Hsame a)). now left.
  - inversion H1 as [ | ? ? Hs1 Ha]; subst.
    inversion H2 as [ | ? ? Hs2 Hb]; subst.
    rewrite Forall_forall in Ha, Hb.
    assert (Hab : a = b).
    { destruct (proj1 (Hsame a) (or_introl eq_refl)) as [E | Hin1];
        [ now symmetry | ].
      destruct (proj2 (Hsame b) (or_introl eq_refl)) as [E | Hin2];
        [ exact E | ].
      exfalso. apply (str_lt_irrefl a).
      apply (str_lt_trans _ b); [ now apply Ha | now apply Hb ]. }
    subst b. f_equal. apply IH; try assumption.
    intros x. split; intros Hx.
    + destruct (proj1 (Hsame x) (or_intror Hx)) as [E | Hin];
        [ | exact Hin ].
      subst x. exfalso. apply (str_lt_irrefl a). now apply Ha.
    + destruct (proj2 (Hsame x) (or_intror Hx)) as [E | Hin];
        [ | exact Hin ].
      subst x. exfalso. apply (str_lt_irrefl a). now apply Hb.
Qed.

Lemma ascending_nodup (l : list string) :
  Sorted.StronglySorted str_lt l -> NoDup l.
Proof.
  induction 1 as [ | a l Hs IH Hall]; constructor; [ | exact IH ].
  intros Hin. rewrite Forall_forall in Hall.
  exact (str_lt_irrefl a (Hall a Hin)).
Qed.

(** The merge depends on the tags given, not on their order or on how often
    each is given. *)
Lemma merge_tags_same (e n e' n' : list string) :
  (forall t, In t e \/ In t n <-> In t e' \/ In t n') ->
  merge_tags e n = merge_tags e' n'.
Proof.
  intros Hsame. unfold merge_tags. cbv zeta.
  apply ascending_unique; try apply sorted_set_sorted.
  intros x. rewrite !sorted_set_in, !in_app_iff. apply Hsame.
Qed.

(** X17: [merge_tags] returns the tags of both lists, each once, in
    ascending order. *)
Theorem merge_tags_sorted_union (existing new : list string) :
  Sorted.StronglySorted str_lt (merge_tags existing new)
  /\ NoDup (merge_tags existing new)
  /\ forall t, In t (merge_tags existing new)
               <-> In t existing \/ In t new.
Proof.
  unfold merge_tags. cbv zeta.
  split; [ apply sorted_set_sorted | ].
  split; [ apply ascending_nodup, sorted_set_sorted | ].
  intros t. now rewrite sorted_set_in, in_app_iff.
Qed.

(** X18: merging is symmetric in its two lists, merging the result again
    with the same new tags, or with none, changes nothing, and so does
    merging a list that is already ascending with tags it has. *)
Theorem merge_tags_again (existing new : list string) :
  merge_tags existing new = merge_tags new existing
  /\ merge_tags (merge_tags existing new) new = merge_tags existing new
  /\ merge_tags (merge_tags existing new) [] = merge_tags existing new
  /\ (Sorted.StronglySorted str_lt existing ->
      incl new existing ->
      merge_tags existing new = existing).
Proof.
  assert (Hin : forall e n t,
             In t (merge_tags e n) <-> In t e \/ In t n).
  { intros e n t. unfold merge_tags. cbv zeta.
    now rewrite sorted_set_in, in_app_iff. }
  split; [ apply merge_tags_same; intros t; tauto | ].
  split; [ apply merge_tags_same; intros t; rewrite Hin; tauto | ].
  split; [ apply merge_tags_same; intros t; rewrite Hin; cbn; tauto | ].
  intros Hsorted Hincl.
  apply ascending_unique.
  - unfold merge_tags. cbv zeta. apply sorted_set_sorted.
  - exact Hsorted.
  - intros x. rewrite Hin. split; [ | tauto ].
    intros [H | H]; [ exact H | now apply Hincl ].
Qed.

(** X19: the merge never has fewer tags than the distinct existing ones, nor
    more than both lists together: the count of tags added that
    [update_task_tags] reports is not negative when the existing tags are
    distinct. *)
Theorem merge_tags_count (existing new : list string) :
  NoDup existing ->
  (List.length existing <= List.length (merge_tags existing new)
   <= List.length existing + List.length new)%nat.
Proof.
  intros Hnd. split.
  - apply NoDup_incl_length; [ exact Hnd | ].
    intros t Ht. unfold merge_tags. cbv zeta.
    rewrite sorted_set_in, in_app_iff. now left.
  - rewrite <- length_app.
    apply NoDup_incl_length.
    + apply ascending_nodup. unfold merge_tags. cbv zeta.
      apply sorted_set_sorted.
    + intros t Ht. unfold merge_tags in Ht. cbv zeta in Ht.
      now rewrite sorted_set_in in Ht.
Qed.

End MergeTags.

Section TagInference.

Import Scripts.

Lemma strip_prefix_app (p s : string) : strip_prefix p (p ++ s) = Some s.
Proof.
  induction p as [ | c p IH]; cbn.
  - reflexivity.
  - now rewrite Ascii.eqb_refl.
Qed.

Lemma take_while_app (f : ascii -> bool) (p rest : string) :
  string_forall f p = true -> stops f rest = true ->
  take_while f (p ++ rest) = p.
Proof.
  induction p as [ | c p IH]; cbn; intros Hp Hrest.
  - destruct rest as [ | c rest]; cbn in *; [ reflexivity | ].
    apply negb_true_iff in Hrest. now rewrite Hrest.
  - apply andb_true_iff in Hp as [Hc Hp]. rewrite Hc. f_equal. now apply IH.
Qed.

Lemma before_dot_alnum (p : string) :
  string_forall is_lower_alnum p = true -> before_dot p = p.
Proof.
  unfold before_dot. induction p as [ | c p IH]; cbn; intros Hp.
  - reflexivity.
  - apply andb_true_iff in Hp as [Hc Hp].
    destruct (Ascii.eqb c ".") eqn:E.
    + apply Ascii.eqb_eq in E. subst c. discriminate Hc.
    + cbn. f_equal. now apply IH.
Qed.

Lemma get_epic_of_group (p rest : string) :
  p <> EmptyString ->
  string_forall is_lower_alnum p = true ->
  stops is_lower_alnum rest = true ->
  get_epic ("Fire-Flow-" ++ p ++ rest) = mapping_get p EPIC_MAPPING "general".
Proof.
  intros Hne Hp Hrest. unfold get_epic.
  rewrite strip_prefix_app, (take_while_app _ _ _ Hp Hrest).
  destruct p as [ | c p]; [ contradiction | ].
  cbv zeta. now rewrite (before_dot_alnum _ Hp).
Qed.

(** X20: the epic is read from the run of lower-case letters and digits
    that follows "Fire-Flow-", up to the first other character: the id of a
    sub-task, which goes on with a dot, has the epic of its parent, and the
    split at the dot never changes anything. *)
Theorem get_epic_of_subtask (p rest : string) :
  p <> EmptyString ->
  string_forall is_lower_alnum p = true ->
  stops is_lower_alnum rest = true ->
  get_epic ("Fire-Flow-" ++ p ++ rest) = mapping_get p EPIC_MAPPING "general"
  /\ forall n, get_epic ("Fire-Flow-" ++ p ++ "." ++ n)
               = get_epic ("Fire-Flow-" ++ p).
Proof.
  intros Hne Hp Hrest.
  split; [ now apply get_epic_of_group | ].
  intros n.
  rewrite (get_epic_of_group p ("." ++ n) Hne Hp eq_refl).
  replace ("Fire-Flow-" ++ p) with ("Fire-Flow-" ++ p ++ EmptyString).
  - now rewrite (get_epic_of_group p EmptyString Hne Hp eq_refl).
  - f_equal. clear. induction p as [ | c p IH]; cbn; [ reflexivity | ].
    now rewrite IH.
Qed.

Lemma prefix_shorter (p q s : string) :
  String.prefix (p ++ q) s = true -> String.prefix p s = true.
Proof.
  revert s. induction p as [ | c p IH]; intros [ | b s]; cbn;
    try reflexivity.
  - intros H. exact H.
  - destruct (ascii_dec c b); [ apply IH | intros H; exact H ].
Qed.

(** A text that has a string has its beginnings. *)
Lemma contains_shorter (p q s : string) :
  contains (p ++ q) s = true -> contains p s = true.
Proof.
  induction s as [ | c s IH]; cbn [contains]; intros H.
  - apply orb_true_iff in H as [H | H]; [ | discriminate H ].
    apply orb_true_iff. left. exact (prefix_shorter _ _ _ H).
  - apply orb_true_iff in H as [H | H]; apply orb_true_iff.
    + left. exact (prefix_shorter _ _ _ H).
    + right. now apply IH.
Qed.

(** X21: a task that [get_type_and_status] types as testing is never left
    in the backlog: its status is "testing", or "done" when the title says
    so; this holds whatever [str.lower] does to the title. *)
Theorem testing_type_is_not_backlog (lower : string -> string)
  (title : string) :
  fst (get_type_and_status lower title) = "testing" ->
  snd (get_type_and_status lower title) = "testing"
  \/ snd (get_type_and_status lower title) = "done".
Proof.
  unfold get_type_and_status. cbv zeta. cbn [fst snd].
  generalize (lower title). intros t.
  destruct (contains "complete" t || contains "done" t)%bool;
    [ intros _; now right | ].
  destruct (contains "test" t) eqn:Htest; [ intros _; now left | ].
  assert (Htesting : contains "testing" t = false).
  { destruct (contains "testing" t) eqn:E; [ | reflexivity ].
    rewrite (contains_shorter "test" "ing" t E) in Htest.
    discriminate Htest. }
  rewrite Htesting. cbn [orb].
  destruct (contains "bug" t || contains "fix" t)%bool;
    [ intros H; discriminate H | ].
  destruct (contains "implement" t || contains "add" t)%bool;
    [ intros H; discriminate H | ].
  destruct (contains "document" t || contains "readme" t)%bool;
    [ intros H; discriminate H | ].
  destruct (contains "improve" t || contains "refactor" t
            || contains "consolidate" t)%bool;
    intros H; discriminate H.
Qed.

End TagInference.

Lemma merge_tags_count_witness :
  (2 <= List.length (Scripts.merge_tags ["tool:git"; "tool:cli"]
                       ["tool:cli"; "feature:sync"]) <= 4)%nat.
Proof.
  apply (merge_tags_count ["tool:git"; "tool:cli"]
           ["tool:cli"; "feature:sync"]).
  repeat constructor; cbn; intros H;
    repeat (destruct H as [H | H]; [ discriminate H | ]); exact H.
Defined.

Lemma get_epic_of_subtask_witness :
  Scripts.get_epic "Fire-Flow-4ik.4" = "overlayfs-epic"
  /\ Scripts.get_epic "Fire-Flow-4ik.4" = Scripts.get_epic "Fire-Flow-4ik".
Proof.
  destruct (get_epic_of_subtask "4ik" ".4" ltac:(discriminate) eq_refl
              eq_refl) as [H1 H2].
  split; [ exact H1 | exact (H2 "4") ].
Defined.

Lemma testing_type_is_not_backlog_witness :
  snd (Scripts.get_type_and_status (fun s => s) "unit test for gate")
    = "testing"
  \/ snd (Scripts.get_type_and_status (fun s => s) "unit test for gate")
     = "done".
Proof.
  exact (testing_type_is_not_backlog (fun s => s) "unit test for gate"
           eq_refl).
Defined.
